(** * personal-twin: the resume / GitHub wizard of the frontend

    A shallow embedding of the wizard's TypeScript sources:
    - [frontend/src/components/ResumeUpload.tsx]  ([validateFile]),
    - [frontend/src/components/GitHubConnect.tsx] ([validateUsername],
      [handleSubmit], the [disabled] attributes of the form),
    - [frontend/src/utils/api.ts]                 ([uploadResume], [analyzeGitHub]),
    - [frontend/src/App.tsx]                      ([handleResumeUpload],
      [handleGitHubConnect], [handleReset]),
    - [frontend/src/components/ResultsDisplay.tsx] ([handleExport]).

    JavaScript strings are sequences of UTF-16 code units, numbers that
    count bytes or steps are naturals, [async] functions are trees of
    synchronous effects and suspension points, and React state is a record
    threaded through the effects in the order the setters are called. *)

From Stdlib Require Import List Bool Arith NArith Lia ZifyBool String Ascii.
Import ListNotations.

Set Implicit Arguments.

(* ================================================================= *)
(** ** JavaScript strings *)

(** A string value: its UTF-16 code units. *)
Abbreviation jsstring := (list N) (only parsing).

(** A source literal (all literals of the sources used here are ASCII). *)
Definition lit (s : string) : jsstring :=
  List.map N_of_ascii (list_ascii_of_string s).

Fixpoint jsstring_eqb (a b : jsstring) : bool :=
  match a, b with
  | [], [] => true
  | x :: a', y :: b' => N.eqb x y && jsstring_eqb a' b'
  | _, _ => false
  end.

(** [ToBoolean] on a string: only the empty string is falsy. *)
Definition truthy (s : jsstring) : bool :=
  match s with [] => false | _ :: _ => true end.

(** [a || b] on strings. *)
Definition js_or (a b : jsstring) : jsstring := if truthy a then a else b.

(** ECMAScript [WhiteSpace] and [LineTerminator] code units, the ones
    [String.prototype.trim] strips. *)
Definition isWhiteSpace (c : N) : bool :=
  match c with
  | 9 | 10 | 11 | 12 | 13 | 32 | 160 | 5760
  | 8232 | 8233 | 8239 | 8287 | 12288 | 65279 => true
  | _ => N.leb 8192 c && N.leb c 8202
  end%N.

Fixpoint trimStart (s : jsstring) : jsstring :=
  match s with
  | c :: s' => if isWhiteSpace c then trimStart s' else s
  | [] => []
  end.

Definition trimEnd (s : jsstring) : jsstring := rev (trimStart (rev s)).

Definition trim (s : jsstring) : jsstring := trimEnd (trimStart s).

(* ================================================================= *)
(** ** Regular expressions (the fragment [GitHubConnect] uses) *)

Module RegExp.

(** A class is written as a list of inclusive ranges: [[a-z\d]] is
    [[(97,122); (48,57)]]. *)
Definition ranges := list (N * N).

Inductive regex : Type :=
| Bol                                  (* ^ , no m flag *)
| Eol                                  (* $ , no m flag *)
| Class (cs : ranges)                  (* [...] *)
| Seq (r1 r2 : regex)
| Alt (r1 r2 : regex)                  (* r1|r2, left first *)
| Ahead (r : regex)                    (* (?=r) *)
| Quant (lo hi : nat) (r : regex).     (* greedy r{lo,hi} *)

Definition members (cs : ranges) : list N :=
  flat_map (fun r => List.map (fun k => (fst r + N.of_nat k)%N)
                       (seq 0 (N.to_nat (snd r + 1 - fst r)))) cs.

Section Matcher.

(** The simple upper-case mapping of a code unit at or above 128, as the
    engine's Unicode tables give it (the code unit itself when the
    upper-case form is not a single code unit). *)
Variable toUpperCase : N -> N.

(** The i flag. *)
Variable ignoreCase : bool.

(** [Canonicalize] of a pattern without the u flag: upper-case, except
    that a code unit at or above 128 is never mapped below 128. *)
Definition canonicalize (ch : N) : N :=
  if negb ignoreCase then ch
  else if (ch <? 128)%N then
         (if (97 <=? ch)%N && (ch <=? 122)%N then (ch - 32)%N else ch)
       else let cu := toUpperCase ch in
            if (cu <? 128)%N then ch else cu.

(** [CharacterSetMatcher]: some member of the class has the same
    canonical form as the input code unit. *)
Definition class_match (cs : ranges) (ch : N) : bool :=
  existsb (fun m => N.eqb (canonicalize m) (canonicalize ch)) (members cs).

(** A position: the index in the input and the code units from there. *)
Definition position := (nat * jsstring)%type.

(** Backtracking matcher in continuation-passing style, as in the
    language specification: [run r x k] tries [r] at [x] and hands every
    end position to [k], leftmost alternative and longest repetition
    first. *)
Fixpoint run (r : regex) (x : position) (k : position -> bool) {struct r} : bool :=
  match r with
  | Bol => match fst x with O => k x | S _ => false end
  | Eol => match snd x with [] => k x | _ :: _ => false end
  | Class cs =>
      match snd x with
      | ch :: rest => if class_match cs ch then k (S (fst x), rest) else false
      | [] => false
      end
  | Seq r1 r2 => run r1 x (fun y => run r2 y k)
  | Alt r1 r2 => if run r1 x k then true else run r2 x k
  | Ahead r1 => if run r1 x (fun _ => true) then k x else false
  | Quant lo hi r1 =>
      (* RepeatMatcher: [hi] iterations left, [lo] of them owed *)
      (fix rep (lo hi : nat) (x : position) {struct hi} : bool :=
         match hi with
         | O => k x
         | S hi' =>
             let d (y : position) :=
               (* with nothing owed, an empty iteration is abandoned *)
               if Nat.eqb lo 0 && Nat.eqb (fst y) (fst x) then false
               else rep (Nat.pred lo) hi' y in
             match lo with
             | S _ => run r1 x d
             | O => if run r1 x d then true else k x
             end
         end) lo hi x
  end.

(** All the suffixes of the input with their index: the start positions
    [RegExpBuiltinExec] tries in turn, [lastIndex] being 0. *)
Fixpoint starts (i : nat) (s : jsstring) : list position :=
  (i, s) :: match s with [] => [] | _ :: s' => starts (S i) s' end.

(** [RegExp.prototype.test] for a regex without the g and y flags. *)
Definition test (r : regex) (s : jsstring) : bool :=
  existsb (fun x => run r x (fun _ => true)) (starts 0 s).

End Matcher.

End RegExp.

(* ================================================================= *)
(** ** ResumeUpload.tsx *)

(** The metadata of a DOM [File] that the wizard reads. *)
Record File : Type := mkFile {
  name : jsstring;
  size : N;
  type : jsstring
}.

Module ResumeUpload.

Definition validTypes : list jsstring :=
  [ lit "application/pdf"; lit "application/msword";
    lit "application/vnd.openxmlformats-officedocument.wordprocessingml.document" ].

Definition maxSize : N := 10 * 1024 * 1024.

(** [Array.prototype.includes] on strings. *)
Definition includes (l : list jsstring) (s : jsstring) : bool :=
  existsb (jsstring_eqb s) l.

(** [validateFile]: the returned boolean and the argument of the one
    [setError] call made on the way. *)
Definition validateFile (file : File) : bool * jsstring :=
  if negb (includes validTypes (type file)) then
    (false, lit "Please upload a PDF or Word document")
  else if (maxSize <? size file)%N then
    (false, lit "File size must be less than 10MB")
  else
    (true, lit "").

(** The component's state that the handlers below touch. *)
Record State : Type := mkState {
  selectedFile : option File;
  error : jsstring
}.

Definition initial : State := mkState None (lit "").

(** [handleFileSelect] and [handleDrop] on the first file of the list:
    the error text is replaced, the file is kept only when valid. *)
Definition selectFile (st : State) (files : list File) : State :=
  match files with
  | [] => st
  | file :: _ =>
      let (ok, msg) := validateFile file in
      if ok then mkState (Some file) msg else mkState (selectedFile st) msg
  end.

(** [handleRemoveFile]: the selection and the error text are cleared. *)
Definition handleRemoveFile (st : State) : State := mkState None (lit "").

(** [handleUpload]: the file handed to [onUpload], if any. *)
Definition handleUpload (st : State) : option File := selectedFile st.

(** The "Continue" button is rendered only for [selectedFile && !error]. *)
Definition uploadButtonRendered (st : State) : bool :=
  match selectedFile st with
  | Some _ => negb (truthy (error st))
  | None => false
  end.

(** The outcome of [validateFile] in the vocabulary of the
    specification's UploadValidator. *)
Inductive Verdict : Type := Accepted | UnsupportedType | TooLarge.

Definition validate (file : File) : Verdict :=
  let (ok, msg) := validateFile file in
  if ok then Accepted
  else if jsstring_eqb msg (lit "Please upload a PDF or Word document")
       then UnsupportedType else TooLarge.

End ResumeUpload.

(* ================================================================= *)
(** ** GitHubConnect.tsx *)

Module GitHubConnect.

Import RegExp.

Definition hyphen : ranges := [(45, 45)%N].
Definition a_z_d : ranges := [(97, 122)%N; (48, 57)%N].

(** [/^[a-z\d](?:[a-z\d]|-(?=[a-z\d])){0,38}$/i] *)
Definition usernameRegex : regex :=
  Seq Bol
    (Seq (Class a_z_d)
       (Seq (Quant 0 38
               (Alt (Class a_z_d) (Seq (Class hyphen) (Ahead (Class a_z_d)))))
          Eol)).

Section Component.

Variable toUpperCase : N -> N.

(** [validateUsername]: the returned boolean and the argument of the one
    [setError] call made on the way. *)
Definition validateUsername (value : jsstring) : bool * jsstring :=
  if negb (truthy (trim value)) then
    (false, lit "Please enter a GitHub username")
  else if negb (test toUpperCase true usernameRegex value) then
    (false, lit "Please enter a valid GitHub username")
  else
    (true, lit "").

(** Local state and props of the component. *)
Record State : Type := mkState {
  username : jsstring;
  error : jsstring
}.

(** [useState('')] twice. *)
Definition initial : State := mkState (lit "") (lit "").

(** [handleSubmit]: the new local state and the argument of the
    [onConnect] call, if it is made. *)
Definition handleSubmit (st : State) : State * option jsstring :=
  let (ok, msg) := validateUsername (username st) in
  (mkState (username st) msg,
   if ok then Some (username st) else None).

(** [handleUsernameChange] *)
Definition handleUsernameChange (st : State) (value : jsstring) : State :=
  mkState value (if truthy (error st) then lit "" else error st).

(** [disabled={isProcessing}] on the text input. *)
Definition inputDisabled (isProcessing : bool) (st : State) : bool :=
  isProcessing.

(** [disabled={isProcessing || !username.trim()}] on the submit button. *)
Definition buttonDisabled (isProcessing : bool) (st : State) : bool :=
  isProcessing || negb (truthy (trim (username st))).

(** A submission attempt by the user, by a click on the submit button or
    by Enter in the text input.  The form has one submit button, its
    default button; the browser submits the form, and so runs
    [handleSubmit], only when that button is not disabled. *)
Definition submitAttempt (isProcessing : bool) (st : State)
  : State * option jsstring :=
  if buttonDisabled isProcessing st then (st, None) else handleSubmit st.

(** The outcome of [validateUsername] in the vocabulary of the
    specification's UsernameValidator. *)
Inductive Verdict : Type := Accepted | Empty | InvalidFormat.

Definition validate (handle : jsstring) : Verdict :=
  let (ok, msg) := validateUsername handle in
  if ok then Accepted
  else if jsstring_eqb msg (lit "Please enter a GitHub username")
       then Empty else InvalidFormat.

End Component.

End GitHubConnect.

(* ================================================================= *)
(** ** Values exchanged with the backend (utils/api.ts) *)

(** An [Error] object: what the handlers read from a caught value. *)
Record JsError : Type := mkError {
  errorName : jsstring;
  errorMessage : jsstring
}.

(** [Error.prototype.toString] *)
Definition errorToString (e : JsError) : jsstring :=
  if negb (truthy (errorName e)) then errorMessage e
  else if negb (truthy (errorMessage e)) then errorName e
  else errorName e ++ lit ": " ++ errorMessage e.

(** [new Error(message)] *)
Definition newError (message : jsstring) : JsError := mkError (lit "Error") message.

(** The [data] of a [ResumeAnalysisResponse]. *)
Record ResumeData : Type := mkResumeData {
  skills : list jsstring;
  experience : list jsstring;
  education : list jsstring;
  summary : jsstring
}.

Module Project.
Record t : Type := mk {
  name : jsstring;
  description : jsstring;
  stars : N;
  language : jsstring
}.
End Project.

(** The [data] of a [GitHubAnalysisResponse]. *)
Record GitHubData : Type := mkGitHubData {
  username : jsstring;
  repositories : N;
  languages : list jsstring;
  contributions : N;
  topProjects : list Project.t
}.

(** The common shape of the response interfaces:
    [{ success: boolean; data: D; message?: string }]. *)
Record Response (D : Type) : Type := mkResponse {
  success : bool;
  data : D;
  message : option jsstring
}.

Definition ResumeAnalysisResponse := Response ResumeData.
Definition GitHubAnalysisResponse := Response GitHubData.

(** A settled promise. *)
Inductive settled (T : Type) : Type :=
| Fulfilled (v : T)
| Rejected (e : JsError).
Arguments Fulfilled {T} v.
Arguments Rejected {T} e.

(** The body of a request: the entries of a [FormData] in the order they
    were appended, or the string fields of a JSON object. *)
Inductive formValue : Type :=
| FormFile (f : File)
| FormString (s : jsstring).

Inductive requestBody : Type :=
| FormData (entries : list (jsstring * formValue))
| JsonObject (fields : list (jsstring * jsstring)).

(** [apiClient.post(url, body, config)] *)
Record request : Type := mkRequest {
  url : jsstring;
  body : requestBody;
  contentType : jsstring
}.

(** The entries of a form under a field name ([FormData.getAll]). *)
Definition getAll (field : jsstring) (b : requestBody) : list formValue :=
  match b with
  | FormData entries =>
      List.map snd (List.filter (fun kv => jsstring_eqb (fst kv) field) entries)
  | JsonObject _ => []
  end.

(* ================================================================= *)
(** ** React state of [App] and the effects of its handlers *)

(** [DigitalTwinData]; [None] is a key that is missing or undefined. *)
Record DigitalTwinData : Type := mkTwin {
  resume : option File;
  resumeAnalysis : option ResumeData;
  githubUsername : option jsstring;
  githubData : option GitHubData;
  analysis : option unit
}.

(** The three [useState] cells of [App]. *)
Record AppState : Type := mkApp {
  step : nat;
  twinData : DigitalTwinData;
  isProcessing : bool
}.

(** [useState<number>(1)], [useState<DigitalTwinData>({})], [useState(false)] *)
Definition emptyTwin : DigitalTwinData := mkTwin None None None None None.
Definition initialApp : AppState := mkApp 1 emptyTwin false.

(** Synchronous effects.  A run of consecutive console calls is one effect
    that carries its first line; console output takes no part in the
    control flow. *)
Inductive effect : Type :=
| ConsoleLog (text : jsstring)
| ConsoleError (text : jsstring)
| SetStep (n : nat)
| SetTwinData (updater : DigitalTwinData -> DigitalTwinData)
| SetIsProcessing (b : bool)
| Alert (text : jsstring).

(** An [async] function body: synchronous effects, suspension points at the
    two [await apiClient.post<T>(...)] calls, and completion by [return] or
    [throw]. *)
Inductive async (R : Type) : Type :=
| Return (r : R)
| Throw (e : JsError)
| Do (e : effect) (k : async R)
| PostResume (req : request) (k : settled ResumeAnalysisResponse -> async R)
| PostGitHub (req : request) (k : settled GitHubAnalysisResponse -> async R).
Arguments Return {R} r.
Arguments Throw {R} e.
Arguments Do {R} e k.
Arguments PostResume {R} req k.
Arguments PostGitHub {R} req k.

Fixpoint bind {A B : Type} (p : async A) (f : A -> async B) : async B :=
  match p with
  | Return a => f a
  | Throw e => Throw e
  | Do e k => Do e (bind k f)
  | PostResume req k => PostResume req (fun o => bind (k o) f)
  | PostGitHub req k => PostGitHub req (fun o => bind (k o) f)
  end.

(** [try { p } catch (error) { handler }] *)
Fixpoint try_catch {A : Type} (p : async A) (handler : JsError -> async A) : async A :=
  match p with
  | Return a => Return a
  | Throw e => handler e
  | Do e k => Do e (try_catch k handler)
  | PostResume req k => PostResume req (fun o => try_catch (k o) handler)
  | PostGitHub req k => PostGitHub req (fun o => try_catch (k o) handler)
  end.

Definition perform (e : effect) : async unit := Do e (Return tt).

Declare Scope async_scope.
Delimit Scope async_scope with async.
Notation "x <- p ;; q" := (bind p (fun x => q))
  (at level 61, p at next level, right associativity) : async_scope.
Notation "p ;; q" := (bind p (fun _ => q))
  (at level 61, right associativity) : async_scope.
Open Scope async_scope.

(** A call [f(a, b)] of a function declared with one parameter: the surplus
    argument is evaluated and never bound. *)
Definition call_with_surplus {A B R : Type} (f : A -> R) (a : A) (_ : B) : R := f a.

(* ================================================================= *)
(** ** utils/api.ts *)

Module Api.

(** The request and response interceptors of [apiClient] around a call. *)
Definition intercepted {T : Type} (req : request)
    (post : request -> (settled T -> async T) -> async T) : async T :=
  Do (ConsoleLog (lit "API Request: POST " ++ url req))
     (post req (fun o =>
        match o with
        | Fulfilled response_data =>
            Do (ConsoleLog (lit "API Response: " ++ url req)) (Return response_data)
        | Rejected error =>
            Do (ConsoleError (lit "API Response Error:")) (Throw error)
        end)).

(** [uploadResume(file)]: one parameter, one form entry. *)
Definition uploadResume (file : File) : async ResumeAnalysisResponse :=
  perform (ConsoleLog (lit "Uploading resume for analysis...")) ;;
  let formData := FormData [ (lit "resume", FormFile file) ] in
  try_catch
    (response_data <-
       intercepted (mkRequest (lit "/resume/analyze") formData
                      (lit "multipart/form-data")) PostResume ;;
     perform (ConsoleLog (lit "Resume analysis complete:")) ;;
     Return response_data)
    (fun error =>
       perform (ConsoleError (lit "Error analyzing resume:")) ;;
       Throw error).

(** [analyzeGitHub(username)] *)
Definition analyzeGitHub (username : jsstring) : async GitHubAnalysisResponse :=
  perform (ConsoleLog (lit "Analyzing GitHub profile: " ++ username)) ;;
  try_catch
    (response_data <-
       intercepted (mkRequest (lit "/github/analyze")
                      (JsonObject [ (lit "username", username) ])
                      (lit "application/json")) PostGitHub ;;
     perform (ConsoleLog (lit "GitHub analysis complete:")) ;;
     Return response_data)
    (fun error =>
       perform (ConsoleError (lit "Error analyzing GitHub:")) ;;
       Throw error).

End Api.

(* ================================================================= *)
(** ** App.tsx *)

Module App.

(** [{ ...prev, resume: file }] and the like. *)
Definition with_resume (file : File) (prev : DigitalTwinData) :=
  mkTwin (Some file) (resumeAnalysis prev) (githubUsername prev)
         (githubData prev) (analysis prev).
Definition with_resumeAnalysis (d : ResumeData) (prev : DigitalTwinData) :=
  mkTwin (resume prev) (Some d) (githubUsername prev)
         (githubData prev) (analysis prev).
Definition with_githubUsername (u : jsstring) (prev : DigitalTwinData) :=
  mkTwin (resume prev) (resumeAnalysis prev) (Some u)
         (githubData prev) (analysis prev).
Definition with_githubData (d : GitHubData) (prev : DigitalTwinData) :=
  mkTwin (resume prev) (resumeAnalysis prev) (githubUsername prev)
         (Some d) (analysis prev).

Definition handleResumeUpload (file : File) : async unit :=
  perform (ConsoleLog (lit "Resume uploaded:" ++ name file)) ;;
  perform (SetTwinData (with_resume file)) ;;
  perform (SetStep 2).

(** [result.message || 'GitHub analysis failed'] *)
Definition failureMessage (result : GitHubAnalysisResponse) : jsstring :=
  match message result with
  | Some m => js_or m (lit "GitHub analysis failed")
  | None => lit "GitHub analysis failed"
  end.

(** [handleGitHubConnect(username)], in the closure of a render whose
    state cell held [twinData]. *)
Definition handleGitHubConnect (twinData : DigitalTwinData) (username : jsstring)
  : async unit :=
  perform (ConsoleLog (lit "GitHub username provided:" ++ username)) ;;
  perform (SetIsProcessing true) ;;
  perform (SetTwinData (with_githubUsername username)) ;;
  try_catch
    ((* First, upload resume if available *)
     match resume twinData with
     | Some file =>
         perform (ConsoleLog (lit "Step 1: Uploading resume to backend and ElevenLabs KB...")) ;;
         try_catch
           (resumeResult <- call_with_surplus Api.uploadResume file username ;;
            perform (ConsoleLog (lit "Resume uploaded successfully")) ;;
            perform (SetTwinData (with_resumeAnalysis (data resumeResult))))
           (fun error =>
              perform (ConsoleError
                (lit "Resume upload failed (continuing with GitHub analysis):")))
     | None => Return tt
     end ;;
     perform (ConsoleLog (lit "Step 2: Analyzing GitHub profile...")) ;;
     (* Actually call the backend API to run the scraper *)
     result <- Api.analyzeGitHub username ;;
     if success result then
       perform (ConsoleLog (lit "ANALYSIS COMPLETE")) ;;
       (* Store the GitHub data *)
       perform (SetTwinData (fun prev =>
                  with_githubData (data result) (with_githubUsername username prev))) ;;
       perform (SetIsProcessing false) ;;
       perform (SetStep 3)
     else
       Throw (newError (failureMessage result)))
    (fun error =>
       perform (ConsoleError (lit "GITHUB ANALYSIS FAILED")) ;;
       perform (SetIsProcessing false) ;;
       perform (Alert (lit "GitHub analysis failed: "
                         ++ js_or (errorMessage error) (errorToString error)))).

Definition handleReset : async unit :=
  perform (SetStep 1) ;;
  perform (SetTwinData (fun _ => emptyTwin)) ;;
  perform (SetIsProcessing false).

End App.

(* ================================================================= *)
(** ** Running a handler against a backend *)

(** What the backend does with each outbound call: the settled promise, or
    [None] for a call that never settles. *)
Record backend : Type := mkBackend {
  resumeService : request -> option (settled ResumeAnalysisResponse);
  gitHubService : request -> option (settled GitHubAnalysisResponse)
}.

(** What an observer outside the page sees, in order. *)
Inductive event : Type :=
| Requested (req : request)            (* an outbound call is issued *)
| Resolved (req : request)             (* its promise is fulfilled *)
| Failed (req : request)               (* its promise is rejected *)
| Logged (text : jsstring)
| LoggedError (text : jsstring)
| Alerted (text : jsstring).

Inductive completion (R : Type) : Type :=
| Returned (r : R)
| Threw (e : JsError)
| Suspended.                           (* waiting on a call for ever *)
Arguments Returned {R} r.
Arguments Threw {R} e.
Arguments Suspended {R}.

(** The state setters, applied in call order. *)
Definition apply (e : effect) (st : AppState) : AppState :=
  match e with
  | SetStep n => mkApp n (twinData st) (isProcessing st)
  | SetTwinData f => mkApp (step st) (f (twinData st)) (isProcessing st)
  | SetIsProcessing b => mkApp (step st) (twinData st) b
  | ConsoleLog _ | ConsoleError _ | Alert _ => st
  end.

Definition emit (e : effect) : list event :=
  match e with
  | ConsoleLog t => [Logged t]
  | ConsoleError t => [LoggedError t]
  | Alert t => [Alerted t]
  | SetStep _ | SetTwinData _ | SetIsProcessing _ => []
  end.

Definition settlement {T : Type} (req : request) (o : settled T) : event :=
  match o with Fulfilled _ => Resolved req | Rejected _ => Failed req end.

Fixpoint exec {R : Type} (B : backend) (p : async R) (st : AppState)
  : AppState * list event * completion R :=
  match p with
  | Return r => (st, [], Returned r)
  | Throw e => (st, [], Threw e)
  | Do e k =>
      let '(st', tr, c) := exec B k (apply e st) in (st', emit e ++ tr, c)
  | PostResume req k =>
      match resumeService B req with
      | None => (st, [Requested req], Suspended)
      | Some o =>
          let '(st', tr, c) := exec B (k o) st in
          (st', Requested req :: settlement req o :: tr, c)
      end
  | PostGitHub req k =>
      match gitHubService B req with
      | None => (st, [Requested req], Suspended)
      | Some o =>
          let '(st', tr, c) := exec B (k o) st in
          (st', Requested req :: settlement req o :: tr, c)
      end
  end.

(** A username submission that reached [onConnect]: the handler of the
    latest render runs on the current state. *)
Definition submitUsername (B : backend) (st : AppState) (username : jsstring)
  : AppState * list event * completion unit :=
  exec B (App.handleGitHubConnect (twinData st) username) st.

(** The parts of a run's result. *)
Definition finalState {R : Type} (r : AppState * list event * completion R) : AppState :=
  fst (fst r).
Definition trace {R : Type} (r : AppState * list event * completion R) : list event :=
  snd (fst r).
Definition outcome {R : Type} (r : AppState * list event * completion R) : completion R :=
  snd r.

(** A submission attempt on the page.  [App] renders
    [<GitHubConnect onConnect={handleGitHubConnect} isProcessing={isProcessing} />]
    only when [step === 2]; an attempt that reaches [onConnect] starts a run. *)
Definition userSubmit (toUpperCase : N -> N) (B : backend) (st : AppState)
    (local : GitHubConnect.State)
  : AppState * GitHubConnect.State * list event :=
  if Nat.eqb (step st) 2 then
    match GitHubConnect.submitAttempt toUpperCase (isProcessing st) local with
    | (local', Some username) =>
        let r := submitUsername B st username in (finalState r, local', trace r)
    | (local', None) => (st, local', [])
    end
  else (st, local, []).

(** The outbound calls of a trace and their settlements. *)
Definition isNetwork (e : event) : bool :=
  match e with
  | Requested _ | Resolved _ | Failed _ => true
  | Logged _ | LoggedError _ | Alerted _ => false
  end.

Definition network (tr : list event) : list event := List.filter isNetwork tr.

Definition alerts (tr : list event) : list jsstring :=
  flat_map (fun e => match e with Alerted t => [t] | _ => [] end) tr.

(* ================================================================= *)
(** ** ResultsDisplay.tsx *)

Module ResultsDisplay.

(** The values [handleExport] puts in its object literal. *)
Inductive jsvalue : Type :=
| Undefined
| Str (s : jsstring).

(** An object literal: its properties in creation order. *)
Definition object := list (jsstring * jsvalue).

(** A [Date], by its UTC fields. *)
Record Date : Type := mkDate {
  fullYear : N;
  month : N;            (* 0 to 11, as [getUTCMonth] *)
  date : N;
  hours : N;
  minutes : N;
  seconds : N;
  milliseconds : N
}.

(** Decimal digits, zero-padded to a width. *)
Fixpoint pad (width : nat) (n : N) : jsstring :=
  match width with
  | O => []
  | S w => pad w (n / 10) ++ [(48 + n mod 10)%N]
  end.

(** [Date.prototype.toISOString]: [YYYY-MM-DDTHH:mm:ss.sssZ], the year
    in the expanded form [+YYYYYY] past 9999. *)
Definition toISOString (d : Date) : jsstring :=
  (if (fullYear d <=? 9999)%N then pad 4 (fullYear d)
   else lit "+" ++ pad 6 (fullYear d))
  ++ lit "-" ++ pad 2 (month d + 1) ++ lit "-" ++ pad 2 (date d)
  ++ lit "T" ++ pad 2 (hours d) ++ lit ":" ++ pad 2 (minutes d)
  ++ lit ":" ++ pad 2 (seconds d) ++ lit "." ++ pad 3 (milliseconds d)
  ++ lit "Z".

Definition hexDigit (n : N) : N := if (n <? 10)%N then (48 + n)%N else (87 + n)%N.

(** [UnicodeEscape]: a backslash, u and four lower-case hex digits. *)
Definition unicodeEscape (c : N) : jsstring :=
  [92; 117; hexDigit (c / 4096 mod 16); hexDigit (c / 256 mod 16);
   hexDigit (c / 16 mod 16); hexDigit (c mod 16)]%N.

Definition isLeadingSurrogate (c : N) : bool := (55296 <=? c)%N && (c <=? 56319)%N.
Definition isTrailingSurrogate (c : N) : bool := (56320 <=? c)%N && (c <=? 57343)%N.

(** The body of [QuoteJSONString], code point by code point. *)
Fixpoint quoteUnits (s : jsstring) : jsstring :=
  match s with
  | [] => []
  | c :: rest =>
      match c with
      | 8 => [92; 98] ++ quoteUnits rest
      | 9 => [92; 116] ++ quoteUnits rest
      | 10 => [92; 110] ++ quoteUnits rest
      | 12 => [92; 102] ++ quoteUnits rest
      | 13 => [92; 114] ++ quoteUnits rest
      | 34 => [92; 34] ++ quoteUnits rest
      | 92 => [92; 92] ++ quoteUnits rest
      | _ =>
          if (c <? 32)%N then unicodeEscape c ++ quoteUnits rest
          else if isLeadingSurrogate c then
            match rest with
            | d :: rest' =>
                if isTrailingSurrogate d then c :: d :: quoteUnits rest'
                else unicodeEscape c ++ quoteUnits rest
            | [] => unicodeEscape c
            end
          else if isTrailingSurrogate c then unicodeEscape c ++ quoteUnits rest
          else c :: quoteUnits rest
      end%N
  end.

Definition quoteJSONString (s : jsstring) : jsstring :=
  [34%N] ++ quoteUnits s ++ [34%N].

(** [SerializeJSONProperty]: [None] is the undefined result that makes
    [SerializeJSONObject] leave the property out. *)
Definition serializeProperty (v : jsvalue) : option jsstring :=
  match v with
  | Undefined => None
  | Str s => Some (quoteJSONString s)
  end.

(** The members [SerializeJSONObject] keeps: key and serialized value. *)
Fixpoint members (o : object) : list (jsstring * jsstring) :=
  match o with
  | [] => []
  | (k, v) :: o' =>
      match serializeProperty v with
      | Some text => (k, text) :: members o'
      | None => members o'
      end
  end.

Fixpoint join (sep : jsstring) (parts : list jsstring) : jsstring :=
  match parts with
  | [] => []
  | [p] => p
  | p :: ps => p ++ sep ++ join sep ps
  end.

(** [JSON.stringify(o, null, 2)] on an object of strings. *)
Definition stringify (o : object) : jsstring :=
  match members o with
  | [] => lit "{}"
  | ms =>
      lit "{" ++ [10%N] ++ lit "  "
      ++ join (lit "," ++ [10%N] ++ lit "  ")
           (List.map (fun m => quoteJSONString (fst m) ++ lit ": " ++ snd m) ms)
      ++ [10%N] ++ lit "}"
  end.

(** The object literal of [handleExport]; [now] is [new Date()]. *)
Definition exportData (twinData : DigitalTwinData) (now : Date) : object :=
  [ (lit "resume",
      match resume twinData with Some f => Str (name f) | None => Undefined end);
    (lit "github",
      match githubUsername twinData with Some u => Str u | None => Undefined end);
    (lit "timestamp", Str (toISOString now)) ].

(** The download [handleExport] triggers. *)
Record Artifact : Type := mkArtifact {
  download : jsstring;
  mimeType : jsstring;
  content : jsstring
}.

Definition handleExport (twinData : DigitalTwinData) (now : Date) : Artifact :=
  mkArtifact (lit "digital-twin.json") (lit "application/json")
             (stringify (exportData twinData now)).

(** The keys of the exported document, in order. *)
Definition exportedKeys (twinData : DigitalTwinData) (now : Date) : list jsstring :=
  List.map fst (members (exportData twinData now)).

(** The serialized value under a key of the exported document. *)
Definition exportedValue (twinData : DigitalTwinData) (now : Date) (key : jsstring)
  : option jsstring :=
  option_map snd
    (List.find (fun m => jsstring_eqb (fst m) key) (members (exportData twinData now))).

End ResultsDisplay.


(* ================================================================= *)
(** ** ProgressTracker.tsx *)

Module ProgressTracker.

Record Step : Type := mkStep {
  number : nat;
  title : jsstring;
  description : jsstring
}.

Definition steps : list Step :=
  [ mkStep 1 (lit "Resume") (lit "Upload your resume");
    mkStep 2 (lit "GitHub") (lit "Connect account");
    mkStep 3 (lit "Complete") (lit "View your twin") ].

(** What is rendered for one entry of [steps]: the two class names of the
    step, whether the indicator is the check icon (the step number
    otherwise), and the connector after it with its class, if there is one. *)
Record StepView : Type := mkView {
  entry : Step;
  active : bool;
  completed : bool;
  checkIcon : bool;
  connector : option bool
}.

(** The body of [steps.map((step, index) => ...)]. *)
Definition renderStep (currentStep : nat) (index : nat) (s : Step) : StepView :=
  mkView s
    (Nat.leb (number s) currentStep)
    (Nat.ltb (number s) currentStep)
    (Nat.ltb (number s) currentStep)
    (if Nat.ltb index (List.length steps - 1)
     then Some (Nat.ltb (number s) currentStep) else None).

Definition render (currentStep : nat) : list StepView :=
  List.map (fun ix => renderStep currentStep (fst ix) (snd ix))
    (combine (seq 0 (List.length steps)) steps).

End ProgressTracker.

(* ================================================================= *)
(** ** ConversationalWidget.tsx *)

Module ConversationalWidget.

(** The answer of [getElevenLabsConfig], a function of utils/api.ts that
    is not part of the sources at hand: the fields the widget reads.
    [data] is optional, since the widget reads [response.data.configured]
    only after [response.success]. *)
Module Config.
Record Data : Type := mkData {
  configured : bool;
  agentId : option jsstring
}.
Record Response : Type := mkResponse {
  success : bool;
  data : option Data
}.
End Config.

(** The three [useState] cells. *)
Record State : Type := mkState {
  agentId : option jsstring;
  isLoading : bool;
  error : option jsstring
}.

(** [useState(null)], [useState(true)], [useState(null)] *)
Definition initial : State := mkState None true None.

(** [fetchAgentConfig], run once by the effect, on the promise of
    [getElevenLabsConfig]: [None] is a promise that never settles.  Reading
    [configured] of a missing [data] throws, which the [catch] handles like
    a rejection. *)
Definition fetchAgentConfig (o : option (settled Config.Response)) (st : State)
  : State :=
  let loading := mkState (agentId st) true (error st) in
  match o with
  | None => loading
  | Some (Fulfilled response) =>
      if Config.success response then
        match Config.data response with
        | Some d =>
            if Config.configured d
            then mkState (Config.agentId d) false (error loading)
            else mkState (agentId loading) false
                   (Some (lit "ElevenLabs agent not configured"))
        | None =>
            mkState (agentId loading) false
              (Some (lit "Failed to load conversational AI"))
        end
      else mkState (agentId loading) false
             (Some (lit "ElevenLabs agent not configured"))
  | Some (Rejected _) =>
      mkState (agentId loading) false
        (Some (lit "Failed to load conversational AI"))
  end.

(** The three returns of the component. *)
Inductive View : Type :=
| Loading
| Unavailable (message : jsstring)
| Embed (agent : jsstring).

Definition truthyOpt (s : option jsstring) : bool :=
  match s with Some t => truthy t | None => false end.

Definition render (st : State) : View :=
  if isLoading st then Loading
  else if truthyOpt (error st) || negb (truthyOpt (agentId st)) then
    Unavailable (match error st with
                 | Some e => js_or e (lit "Agent not configured")
                 | None => lit "Agent not configured"
                 end)
  else
    Embed (match agentId st with Some a => a | None => [] end).

End ConversationalWidget.

(* ================================================================= *)
(** ** The page: [App] and the component it renders *)

(** [App] renders [ResumeUpload] only for [step === 1], [GitHubConnect]
    only for [step === 2] and [ResultsDisplay] only for [step === 3].  A
    component that is not rendered is unmounted: its state cells start
    from their initial values when it is rendered again. *)
Record Page : Type := mkPage {
  appState : AppState;
  upload : ResumeUpload.State;
  connect : GitHubConnect.State
}.

Definition initialPage : Page :=
  mkPage initialApp ResumeUpload.initial GitHubConnect.initial.

Definition rendered (st : AppState) (u : ResumeUpload.State)
    (c : GitHubConnect.State) : Page :=
  mkPage st
    (if Nat.eqb (step st) 1 then u else ResumeUpload.initial)
    (if Nat.eqb (step st) 2 then c else GitHubConnect.initial).

(** What the user can do on the page. *)
Inductive action : Type :=
| SelectFiles (files : list File)     (* drop on the zone, or the file dialog *)
| RemoveFile                          (* the remove button of the preview *)
| Continue                            (* "Continue to GitHub Connection" *)
| ChangeUsername (value : jsstring)   (* typing in the text input *)
| Submit (B : backend)                (* submitting the form; [B] is how the
                                         backend answers the run, if one starts *)
| Export (now : ResultsDisplay.Date)  (* "Export Data" *)
| Reset.                              (* "Create New Twin" *)

(** A backend for handlers that make no call. *)
Definition idle : backend := mkBackend (fun _ => None) (fun _ => None).

(** One action: the handler behind the control runs if the control is
    rendered and enabled, and nothing happens otherwise.  The events are
    those of the [App] handlers. *)
Definition act (toUpperCase : N -> N) (a : action) (p : Page) : Page * list event :=
  let st := appState p in
  match a with
  | SelectFiles files =>
      if Nat.eqb (step st) 1
      then (mkPage st (ResumeUpload.selectFile (upload p) files) (connect p), [])
      else (p, [])
  | RemoveFile =>
      if Nat.eqb (step st) 1 then
        match ResumeUpload.selectedFile (upload p) with
        | Some _ => (mkPage st (ResumeUpload.handleRemoveFile (upload p)) (connect p), [])
        | None => (p, [])
        end
      else (p, [])
  | Continue =>
      if Nat.eqb (step st) 1 && ResumeUpload.uploadButtonRendered (upload p) then
        match ResumeUpload.handleUpload (upload p) with
        | Some file =>
            let r := exec idle (App.handleResumeUpload file) st in
            (rendered (finalState r) (upload p) (connect p), trace r)
        | None => (p, [])
        end
      else (p, [])
  | ChangeUsername value =>
      if Nat.eqb (step st) 2
         && negb (GitHubConnect.inputDisabled (isProcessing st) (connect p))
      then (mkPage st (upload p) (GitHubConnect.handleUsernameChange (connect p) value), [])
      else (p, [])
  | Submit B =>
      if Nat.eqb (step st) 2 then
        let '(st', c', tr) := userSubmit toUpperCase B st (connect p) in
        (rendered st' (upload p) c', tr)
      else (p, [])
  | Export _ => (p, [])
  | Reset =>
      if Nat.eqb (step st) 3 then
        let r := exec idle App.handleReset st in
        (rendered (finalState r) (upload p) (connect p), trace r)
      else (p, [])
  end.

(** A sequence of actions, with the events it produces in order. *)
Fixpoint session (toUpperCase : N -> N) (actions : list action) (p : Page)
  : Page * list event :=
  match actions with
  | [] => (p, [])
  | a :: rest =>
      let '(p', tr) := act toUpperCase a p in
      let '(p'', tr') := session toUpperCase rest p' in
      (p'', tr ++ tr')
  end.
(* ================================================================= *)
(** * Vocabulary of the properties *)

Import RegExp.

(** The allow-list of the specification's UploadValidator. *)
Definition allowedType (t : jsstring) : Prop :=
  t = lit "application/pdf" \/ t = lit "application/msword" \/
  t = lit "application/vnd.openxmlformats-officedocument.wordprocessingml.document".

(** The two character classes of the username grammar. *)
Definition isAlnum (c : N) : bool :=
  ((48 <=? c) && (c <=? 57) || (65 <=? c) && (c <=? 90) || (97 <=? c) && (c <=? 122))%N.

Definition isHyphen (c : N) : bool := (c =? 45)%N.

(** The pattern as the specification writes it,
    [^[A-Za-z0-9](?:[A-Za-z0-9]|-(?=[A-Za-z0-9])){0,38}$], without flags. *)
Definition A_Za_z0_9 : RegExp.ranges := [(65, 90)%N; (97, 122)%N; (48, 57)%N].

Definition specUsernameRegex : RegExp.regex :=
  Seq Bol
    (Seq (Class A_Za_z0_9)
       (Seq (Quant 0 38
               (Alt (Class A_Za_z0_9)
                    (Seq (Class GitHubConnect.hyphen) (Ahead (Class A_Za_z0_9)))))
          Eol)).

(** The handles the pattern describes, by direct recursion: [al] and [hy]
    decide the two classes, [n] bounds the length of the tail. *)
Section Shape.
Variables al hy : N -> bool.

Definition headIs (s : jsstring) : bool :=
  match s with d :: _ => al d | [] => false end.

Fixpoint tail (n : nat) (s : jsstring) {struct s} : bool :=
  match s with
  | [] => true
  | c :: r =>
      match n with
      | O => false
      | S n' => (al c && tail n' r) || (hy c && headIs r && tail n' r)
      end
  end.

Definition shape (s : jsstring) : bool :=
  match s with c :: r => al c && tail 38 r | [] => false end.
End Shape.

(** The form the two patterns share, over the class [A] of letters and
    digits and the class [H] of the separator, and the continuation that
    checks [$]. *)
Definition handleBody (A H : ranges) : regex :=
  Alt (Class A) (Seq (Class H) (Ahead (Class A))).

Definition handleRegex (A H : ranges) : regex :=
  Seq Bol (Seq (Class A) (Seq (Quant 0 38 (handleBody A H)) Eol)).

Definition atEol (up : N -> N) (ic : bool) : position -> bool :=
  fun y => run up ic Eol y (fun _ => true).

(** The grammar in words: 1 to 39 code units, each alphanumeric or a hyphen,
    no hyphen first, last or followed by another hyphen. *)
Definition handleGrammar (s : jsstring) : Prop :=
  (1 <= List.length s <= 39)%nat
  /\ (forall c, In c s -> isAlnum c = true \/ c = 45%N)
  /\ (forall i, nth_error s i = Some 45%N ->
        i <> 0%nat /\ exists d, nth_error s (S i) = Some d /\ d <> 45%N).


(** The two outbound operations: Stage A is the call to [/resume/analyze],
    Stage B the call to [/github/analyze]. *)
Definition resumeRequest (file : File) : request :=
  mkRequest (lit "/resume/analyze") (FormData [ (lit "resume", FormFile file) ])
            (lit "multipart/form-data").

Definition gitHubRequest (username : jsstring) : request :=
  mkRequest (lit "/github/analyze") (JsonObject [ (lit "username", username) ])
            (lit "application/json").

(** Stage A resolves if it is invoked at all. *)
Definition stageA_settles (B : backend) (st : AppState) : Prop :=
  match resume (twinData st) with
  | Some file => resumeService B (resumeRequest file) <> None
  | None => True
  end.

(** The failure of Stage B, if its settled promise is one: a rejection, or
    a body that says [success: false]. *)
Definition stageB_failure (o : settled GitHubAnalysisResponse) : option JsError :=
  match o with
  | Rejected e => Some e
  | Fulfilled r => if success r then None else Some (newError (App.failureMessage r))
  end.

(** What Stage A leaves in [twinData] once it has settled. *)
Definition afterStageA (o : settled ResumeAnalysisResponse) (t : DigitalTwinData)
  : DigitalTwinData :=
  match o with
  | Fulfilled r => App.with_resumeAnalysis (data r) t
  | Rejected _ => t
  end.

(** What the properties below observe of a run: the final state, the
    outbound calls with their settlements, the alerts, and how the handler
    ended. *)
Definition observed (r : AppState * list event * completion unit)
  : AppState * list event * list jsstring * completion unit :=
  (finalState r, network (trace r), alerts (trace r), outcome r).

(** The state once the synchronous prefix of the handler has run. *)
Definition submitted (st : AppState) (username : jsstring) : DigitalTwinData :=
  App.with_githubUsername username (twinData st).

Definition failureAlert (e : JsError) : jsstring :=
  lit "GitHub analysis failed: " ++ js_or (errorMessage e) (errorToString e).


(** Sample values for the concrete runs below. *)
Definition resume_pdf : File :=
  mkFile (lit "resume.pdf") 512000 (lit "application/pdf").

Definition octocat : jsstring := lit "octocat".

Definition sampleResumeData : ResumeData :=
  mkResumeData [lit "Rocq"] [lit "Engineer"] [lit "MSc"] (lit "A summary").

Definition sampleGitHubData : GitHubData :=
  mkGitHubData octocat 8 [lit "TypeScript"] 120 [].

(** A backend that answers every call with a settled promise. *)
Definition answering (a : settled ResumeAnalysisResponse)
    (b : settled GitHubAnalysisResponse) : backend :=
  mkBackend (fun _ => Some a) (fun _ => Some b).

(** The page after [resume_pdf] went through [handleResumeUpload]. *)
Definition afterUpload : AppState :=
  finalState (exec (mkBackend (fun _ => None) (fun _ => None))
                (App.handleResumeUpload resume_pdf) initialApp).

(** A file that [validateFile] lets through. *)
Definition validFile (f : File) : Prop :=
  ResumeUpload.validate f = ResumeUpload.Accepted.

(** What holds of the page whatever the user has done so far. *)
Definition pageInvariant (p : Page) : Prop :=
  let st := appState p in
  let td := twinData st in
  (forall f, ResumeUpload.selectedFile (upload p) = Some f -> validFile f)
  /\ (forall f, resume td = Some f -> validFile f)
  /\ (forall u, githubUsername td = Some u -> handleGrammar u)
  /\ GitHubConnect.error (connect p) <> lit "Please enter a GitHub username"
  /\ match step st with
     | 1 => td = emptyTwin /\ isProcessing st = false
            /\ connect p = GitHubConnect.initial
     | 2 => resume td <> None /\ githubData td = None
            /\ upload p = ResumeUpload.initial
     | 3 => resume td <> None /\ githubUsername td <> None /\ githubData td <> None
            /\ isProcessing st = false
            /\ upload p = ResumeUpload.initial /\ connect p = GitHubConnect.initial
     | _ => False
     end.

(** How a call ends for its caller, and what is seen of its settlement. *)
Definition completionOf {T : Type} (o : option (settled T)) : completion T :=
  match o with
  | None => Suspended
  | Some (Fulfilled v) => Returned v
  | Some (Rejected e) => Threw e
  end.

Definition settlementOf {T : Type} (req : request) (o : option (settled T))
  : list event :=
  match o with
  | None => []
  | Some s => [settlement req s]
  end.

(** The outbound calls a session may make: a validated file to
    /resume/analyze, a handle of the grammar to /github/analyze. *)
Definition validRequest (req : request) : Prop :=
  (exists f, req = resumeRequest f /\ validFile f)
  \/ (exists u, req = gitHubRequest u /\ handleGrammar u).
(* ================================================================= *)
(** * Properties *)

Unset Implicit Arguments.

(** ** Strings *)



Lemma jsstring_eqb_eq (a b : jsstring) : jsstring_eqb a b = true <-> a = b.
Proof.
  revert b; induction a as [|x a IH]; intros [|y b]; simpl; try (split; congruence).
  rewrite andb_true_iff, N.eqb_eq, IH. split.
  - intros [-> ->]; reflexivity.
  - intros E; injection E; auto.
Qed.

Lemma jsstring_eqb_refl (a : jsstring) : jsstring_eqb a a = true.
Proof. apply jsstring_eqb_eq; reflexivity. Qed.

Lemma jsstring_eqb_neq (a b : jsstring) : jsstring_eqb a b = false <-> a <> b.
Proof.
  rewrite <- jsstring_eqb_eq. destruct (jsstring_eqb a b); split; congruence.
Qed.

Lemma trimStart_all_white (s : jsstring) :
  forallb isWhiteSpace s = true -> trimStart s = [].
Proof.
  induction s as [|c s IH]; simpl; [reflexivity|].
  destruct (isWhiteSpace c); simpl; [exact IH | discriminate].
Qed.

Lemma trimStart_head (s : jsstring) :
  trimStart s = [] \/ exists c r, trimStart s = c :: r /\ isWhiteSpace c = false.
Proof.
  induction s as [|c s IH]; simpl; [left; reflexivity|].
  destruct (isWhiteSpace c) eqn:W; [exact IH|].
  right; exists c, s; auto.
Qed.

Lemma trimStart_nil_white (s : jsstring) :
  trimStart s = [] -> forallb isWhiteSpace s = true.
Proof.
  induction s as [|c s IH]; simpl; [reflexivity|].
  destruct (isWhiteSpace c); simpl; [exact IH | discriminate].
Qed.

Lemma forallb_rev {A : Type} (p : A -> bool) (l : list A) :
  forallb p (rev l) = forallb p l.
Proof.
  induction l as [|a l IH]; simpl; [reflexivity|].
  rewrite forallb_app, IH; simpl. rewrite andb_true_r. apply andb_comm.
Qed.

(** [value.trim()] is the empty string exactly on input made of white space
    and line terminators only (the empty input included). *)
Lemma trim_truthy (s : jsstring) :
  truthy (trim s) = negb (forallb isWhiteSpace s).
Proof.
  unfold trim, trimEnd.
  destruct (forallb isWhiteSpace s) eqn:W; simpl.
  - rewrite (trimStart_all_white s W). reflexivity.
  - destruct (trimStart_head s) as [E | (c & r & E & Wc)].
    + apply trimStart_nil_white in E. congruence.
    + destruct (rev (trimStart (rev (trimStart s)))) as [|d t] eqn:R; [|reflexivity].
      exfalso.
      assert (R' : trimStart (rev (trimStart s)) = []).
      { apply (f_equal (@rev N)) in R. rewrite rev_involutive in R. exact R. }
      apply trimStart_nil_white in R'. rewrite forallb_rev, E in R'.
      simpl in R'. rewrite Wc in R'. discriminate.
Qed.

(* ----------------------------------------------------------------- *)
(** ** UploadValidator ([validateFile]) *)

Lemma includes_validTypes (t : jsstring) :
  ResumeUpload.includes ResumeUpload.validTypes t = true <-> allowedType t.
Proof.
  unfold ResumeUpload.includes, ResumeUpload.validTypes, allowedType.
  cbn [existsb]. rewrite !orb_true_iff, !jsstring_eqb_eq. intuition congruence.
Qed.

Lemma includes_validTypes_false (t : jsstring) :
  ResumeUpload.includes ResumeUpload.validTypes t = false <-> ~ allowedType t.
Proof.
  rewrite <- includes_validTypes.
  destruct (ResumeUpload.includes ResumeUpload.validTypes t); split; congruence.
Qed.

(** C6. [validateFile] accepts exactly the files whose MIME type is
    application/pdf, application/msword or the OOXML Word type and whose
    size is at most 10 * 1024 * 1024 bytes; it answers UnsupportedType
    exactly when the type is not in the list, and TooLarge exactly when the
    type is in the list and the size exceeds the limit. *)
Theorem validateFile_verdict (file : File) :
  (ResumeUpload.validate file = ResumeUpload.Accepted <->
     allowedType (type file) /\ (size file <= 10 * 1024 * 1024)%N)
  /\ (ResumeUpload.validate file = ResumeUpload.UnsupportedType <->
        ~ allowedType (type file))
  /\ (ResumeUpload.validate file = ResumeUpload.TooLarge <->
        allowedType (type file) /\ (10 * 1024 * 1024 < size file)%N).
Proof.
  unfold ResumeUpload.validate, ResumeUpload.validateFile.
  destruct (ResumeUpload.includes ResumeUpload.validTypes (type file)) eqn:T; cbn [negb].
  - apply includes_validTypes in T.
    change ResumeUpload.maxSize with (10 * 1024 * 1024)%N.
    destruct (N.ltb_spec (10 * 1024 * 1024) (size file)) as [L | L].
    + vm_compute jsstring_eqb.
      repeat split; try discriminate; try tauto; try lia; intuition lia.
    + repeat split; try discriminate; try tauto; try lia; intuition lia.
  - apply includes_validTypes_false in T.
    vm_compute jsstring_eqb. repeat split; try discriminate; tauto.
Qed.

(** The three verdicts on concrete files. *)
Lemma validateFile_verdict_witness :
  ResumeUpload.validate (mkFile (lit "resume.pdf") 512000 (lit "application/pdf"))
    = ResumeUpload.Accepted
  /\ ResumeUpload.validate (mkFile (lit "notes.txt") 10 (lit "text/plain"))
    = ResumeUpload.UnsupportedType
  /\ ResumeUpload.validate (mkFile (lit "cv.doc") 10485761 (lit "application/msword"))
    = ResumeUpload.TooLarge.
Proof.
  split; [|split].
  - apply (proj1 (validateFile_verdict _)). split.
    + left; reflexivity.
    + vm_compute; discriminate.
  - apply (proj1 (proj2 (validateFile_verdict _))).
    intros [H | [H | H]]; vm_compute in H; discriminate.
  - apply (proj2 (proj2 (validateFile_verdict _))). split.
    + right; left; reflexivity.
    + vm_compute; reflexivity.
Defined.

(* ----------------------------------------------------------------- *)
(** ** UsernameValidator ([validateUsername]) *)

Ltac split_ifs :=
  repeat match goal with
         | H : context [if ?b then _ else _] |- _ => destruct b eqn:?
         | |- context [if ?b then _ else _] => destruct b eqn:?
         end.

Lemma In_members (cs : ranges) (m : N) :
  In m (members cs) <-> exists lo hi, In (lo, hi) cs /\ (lo <= m <= hi)%N.
Proof.
  unfold members. rewrite in_flat_map. split.
  - intros ([lo hi] & Hin & Hm). apply in_map_iff in Hm as (k & <- & Hk).
    apply in_seq in Hk. exists lo, hi. simpl in *. split; [exact Hin | lia].
  - intros (lo & hi & Hin & Hm). exists (lo, hi). split; [exact Hin|].
    apply in_map_iff. exists (N.to_nat (m - lo)). simpl. split; [lia|].
    apply in_seq. lia.
Qed.

Section Classes.
Variable up : N -> N.

Lemma canonicalize_ascii (c : N) :
  (c < 128)%N ->
  canonicalize up true c = if ((97 <=? c) && (c <=? 122))%N then (c - 32)%N else c.
Proof.
  intros H. unfold canonicalize. cbn [negb].
  destruct (N.ltb_spec c 128); [reflexivity | lia].
Qed.

Lemma canonicalize_high (c : N) :
  (128 <= c)%N -> (128 <= canonicalize up true c)%N.
Proof.
  intros H. unfold canonicalize. cbn [negb].
  destruct (N.ltb_spec c 128); [lia|].
  cbv zeta. destruct (N.ltb_spec (up c) 128); lia.
Qed.

Lemma class_match_a_z_d (c : N) :
  class_match up true GitHubConnect.a_z_d c = isAlnum c.
Proof.
  apply eq_true_iff_eq. unfold class_match. rewrite existsb_exists. split.
  - intros (m & Hin & E). apply N.eqb_eq in E.
    apply In_members in Hin as (lo & hi & Hr & Hm).
    assert (Hm' : (m < 128)%N).
    { destruct Hr as [Hr | [Hr | []]]; injection Hr as <- <-; lia. }
    destruct (N.lt_ge_cases c 128) as [Hc | Hc].
    + rewrite (canonicalize_ascii m Hm'), (canonicalize_ascii c Hc) in E.
      unfold isAlnum.
      destruct Hr as [Hr | [Hr | []]]; injection Hr as <- <-; split_ifs; lia.
    + pose proof (canonicalize_high c Hc) as Hh. rewrite <- E in Hh.
      rewrite (canonicalize_ascii m Hm') in Hh. split_ifs; lia.
  - unfold isAlnum. intros H.
    destruct ((65 <=? c) && (c <=? 90))%N eqn:U.
    + exists (c + 32)%N. split.
      * apply In_members. exists 97%N, 122%N. split; [left; reflexivity | lia].
      * apply N.eqb_eq. rewrite !canonicalize_ascii by lia. split_ifs; lia.
    + exists c. split; [|apply N.eqb_refl].
      apply In_members. unfold GitHubConnect.a_z_d.
      destruct (N.le_gt_cases c 57).
      * exists 48%N, 57%N. split; [right; left; reflexivity | lia].
      * exists 97%N, 122%N. split; [left; reflexivity | lia].
Qed.

End Classes.

Section Classes2.
Variable up : N -> N.

Lemma class_match_A_Za_z0_9 (c : N) :
  class_match up false A_Za_z0_9 c = isAlnum c.
Proof.
  apply eq_true_iff_eq. unfold class_match. rewrite existsb_exists.
  unfold canonicalize; cbn [negb]. split.
  - intros (m & Hin & E). apply N.eqb_eq in E. subst m.
    apply In_members in Hin as (lo & hi & Hr & Hm). unfold isAlnum.
    destruct Hr as [Hr | [Hr | [Hr | []]]]; injection Hr as <- <-; lia.
  - unfold isAlnum. intros H. exists c. split; [|apply N.eqb_refl].
    apply In_members. unfold A_Za_z0_9.
    destruct (N.le_gt_cases c 57); [|destruct (N.le_gt_cases c 90)].
    + exists 48%N, 57%N. split; [right; right; left; reflexivity | lia].
    + exists 65%N, 90%N. split; [left; reflexivity | lia].
    + exists 97%N, 122%N. split; [right; left; reflexivity | lia].
Qed.

Lemma class_match_hyphen (ic : bool) (c : N) :
  class_match up ic GitHubConnect.hyphen c = isHyphen c.
Proof.
  unfold class_match, isHyphen. change (members GitHubConnect.hyphen) with [45%N].
  cbn [existsb]. rewrite orb_false_r. destruct ic.
  - destruct (N.lt_ge_cases c 128) as [Hc | Hc].
    + rewrite !canonicalize_ascii by lia. split_ifs; lia.
    + pose proof (canonicalize_high up c Hc). rewrite canonicalize_ascii by lia.
      split_ifs; lia.
  - unfold canonicalize; cbn [negb]. apply N.eqb_sym.
Qed.
End Classes2.

Lemma tail_ext (al al' hy hy' : N -> bool) :
  (forall c, al c = al' c) -> (forall c, hy c = hy' c) ->
  forall n s, tail al hy n s = tail al' hy' n s.
Proof.
  intros Ha Hh n; induction n as [|n IH]; intros [|c r]; cbn [tail]; try reflexivity.
  rewrite Ha, Hh, IH. destruct r; cbn [headIs]; rewrite ?Ha; reflexivity.
Qed.

Lemma shape_ext (al al' hy hy' : N -> bool) :
  (forall c, al c = al' c) -> (forall c, hy c = hy' c) ->
  forall s, shape al hy s = shape al' hy' s.
Proof.
  intros Ha Hh [|c r]; cbn [shape]; [reflexivity|].
  rewrite Ha, (tail_ext _ _ _ _ Ha Hh). reflexivity.
Qed.

Section Engine.
Variable up : N -> N.
Variable ic : bool.
Variables A H : ranges.

Lemma run_Quant0_S (r : regex) (n : nat) (x : position) (k : position -> bool) :
  run up ic (Quant 0 (S n) r) x k =
  if run up ic r x (fun y => if Nat.eqb (fst y) (fst x) then false
                             else run up ic (Quant 0 n r) y k)
  then true else k x.
Proof. reflexivity. Qed.

Lemma run_body_cons (i : nat) (c : N) (r : jsstring) (d : position -> bool) :
  run up ic (handleBody A H) (i, c :: r) d =
  (class_match up ic A c && d (S i, r))
  || (class_match up ic H c && headIs (class_match up ic A) r && d (S i, r)).
Proof.
  unfold handleBody. cbn [run fst snd]. generalize (d (S i, r)); intros b.
  destruct r as [|e r']; cbn [headIs];
    repeat match goal with
           | |- context [class_match up ic ?cs ?x] =>
               destruct (class_match up ic cs x)
           end;
    destruct b; reflexivity.
Qed.

Lemma run_body_nil (i : nat) (d : position -> bool) :
  run up ic (handleBody A H) (i, []) d = false.
Proof. reflexivity. Qed.

Lemma run_quant (n : nat) : forall (i : nat) (s : jsstring),
  run up ic (Quant 0 n (handleBody A H)) (i, s) (atEol up ic)
  = tail (class_match up ic A) (class_match up ic H) n s.
Proof.
  induction n as [|n IH]; intros i [|c r].
  - reflexivity.
  - reflexivity.
  - rewrite run_Quant0_S, run_body_nil. reflexivity.
  - rewrite run_Quant0_S, run_body_cons. cbn [fst tail].
    assert (E : Nat.eqb (S i) i = false) by (apply Nat.eqb_neq; lia).
    rewrite E, IH.
    unfold atEol at 1. cbn [run snd].
    destruct (_ || _); reflexivity.
Qed.

Lemma run_Seq (r1 r2 : regex) (x : position) (k : position -> bool) :
  run up ic (Seq r1 r2) x k = run up ic r1 x (fun y => run up ic r2 y k).
Proof. reflexivity. Qed.

Lemma run_Bol (i : nat) (s : jsstring) (k : position -> bool) :
  run up ic Bol (i, s) k = match i with O => k (i, s) | S _ => false end.
Proof. reflexivity. Qed.

Lemma run_Class_cons (cs : ranges) (i : nat) (c : N) (r : jsstring)
    (k : position -> bool) :
  run up ic (Class cs) (i, c :: r) k
  = if class_match up ic cs c then k (S i, r) else false.
Proof. reflexivity. Qed.

Lemma run_Class_nil (cs : ranges) (i : nat) (k : position -> bool) :
  run up ic (Class cs) (i, []) k = false.
Proof. reflexivity. Qed.

Lemma run_handleRegex (s : jsstring) :
  run up ic (handleRegex A H) (0, s) (fun _ => true)
  = shape (class_match up ic A) (class_match up ic H) s.
Proof.
  unfold handleRegex. rewrite run_Seq, run_Bol, run_Seq.
  destruct s as [|c r].
  - rewrite run_Class_nil. reflexivity.
  - rewrite run_Class_cons, run_Seq.
    change (fun y => run up ic Eol y (fun _ => true)) with (atEol up ic).
    rewrite run_quant.
    cbn [shape]. destruct (class_match up ic A c); reflexivity.
Qed.

Lemma run_handleRegex_later (s : jsstring) (i : nat) :
  existsb (fun x => run up ic (handleRegex A H) x (fun _ => true)) (starts (S i) s) = false.
Proof.
  revert i; induction s as [|c r IH]; intros i; cbn [starts existsb].
  - unfold handleRegex. rewrite run_Seq, run_Bol. reflexivity.
  - rewrite IH. unfold handleRegex. rewrite run_Seq, run_Bol. reflexivity.
Qed.

Lemma test_handleRegex (s : jsstring) :
  test up ic (handleRegex A H) s
  = shape (class_match up ic A) (class_match up ic H) s.
Proof.
  unfold test. destruct s as [|c r]; cbn [starts existsb].
  - reflexivity.
  - rewrite run_handleRegex_later, orb_false_r. apply run_handleRegex.
Qed.
End Engine.

Lemma tail_grammar (s : jsstring) : forall n : nat,
  tail isAlnum isHyphen n s = true <->
  (List.length s <= n)%nat
  /\ (forall c, In c s -> isAlnum c = true \/ c = 45%N)
  /\ (forall i, nth_error s i = Some 45%N ->
        exists d, nth_error s (S i) = Some d /\ d <> 45%N).
Proof.
  induction s as [|c r IH]; intros n.
  - cbn [tail List.length]. split; [intros _ | reflexivity].
    split; [lia|]. split; [intros c []|]. intros [|i] Hi; discriminate.
  - destruct n as [|n]; cbn [tail List.length].
    + split; [discriminate | intros [Hl _]; lia].
    + rewrite orb_true_iff, !andb_true_iff, IH. split.
      * intros Hc.
        assert (HT : (List.length r <= n)%nat
                     /\ (forall c, In c r -> isAlnum c = true \/ c = 45%N)
                     /\ (forall i, nth_error r i = Some 45%N ->
                           exists d, nth_error r (S i) = Some d /\ d <> 45%N))
          by tauto.
        destruct HT as (Hl & Hall & Hh).
        split; [lia|]. split.
        -- intros x [<- | Hx]; [|auto].
           destruct Hc as [[Ha _] | [[Hy _] _]]; [left; exact Ha|].
           right. apply N.eqb_eq. exact Hy.
        -- intros [|i] Hi; [|apply Hh; exact Hi].
           cbn [nth_error] in Hi. injection Hi as ->.
           destruct Hc as [[Ha _] | [[_ Hd] _]]; [discriminate Ha|].
           destruct r as [|d r']; [discriminate Hd|]. cbn [headIs] in Hd.
           exists d. split; [reflexivity|]. intros ->. discriminate Hd.
      * intros (Hl & Hall & Hh).
        assert (HT : (List.length r <= n)%nat
                     /\ (forall c, In c r -> isAlnum c = true \/ c = 45%N)
                     /\ (forall i, nth_error r i = Some 45%N ->
                           exists d, nth_error r (S i) = Some d /\ d <> 45%N)).
        { split; [lia|]. split; [intros x Hx; apply Hall; right; exact Hx|].
          intros i Hi. apply (Hh (S i)). exact Hi. }
        destruct (Hall c (or_introl eq_refl)) as [Ha | ->]; [left; tauto|].
        right. split; [|exact HT]. split; [reflexivity|].
        destruct (Hh 0%nat eq_refl) as (d & Hd & Hne).
        destruct r as [|e r']; [discriminate Hd|]. cbn [nth_error] in Hd.
        injection Hd as ->. cbn [headIs].
        destruct (Hall d (or_intror (or_introl eq_refl))) as [Ha | ->];
          [exact Ha | congruence].
Qed.

Lemma shape_grammar (s : jsstring) :
  shape isAlnum isHyphen s = true <-> handleGrammar s.
Proof.
  unfold handleGrammar. destruct s as [|c r]; cbn [shape List.length].
  - split; [discriminate | intros [Hl _]; lia].
  - rewrite andb_true_iff, tail_grammar. split.
    + intros (Ha & Hl & Hall & Hh). split; [lia|]. split.
      * intros x [<- | Hx]; [left; exact Ha | auto].
      * intros [|i] Hi.
        -- cbn [nth_error] in Hi. injection Hi as ->. discriminate Ha.
        -- split; [discriminate|]. apply Hh. exact Hi.
    + intros (Hl & Hall & Hh). split; [|split; [lia|split]].
      * destruct (Hall c (or_introl eq_refl)) as [Ha | ->]; [exact Ha|].
        destruct (Hh 0%nat eq_refl) as [Hne _]. congruence.
      * intros x Hx. apply Hall. right. exact Hx.
      * intros i Hi. apply (Hh (S i)). exact Hi.
Qed.

Lemma usernameRegex_shape (up : N -> N) (s : jsstring) :
  test up true GitHubConnect.usernameRegex s = shape isAlnum isHyphen s.
Proof.
  change GitHubConnect.usernameRegex
    with (handleRegex GitHubConnect.a_z_d GitHubConnect.hyphen).
  rewrite test_handleRegex.
  apply shape_ext; intros c; [apply class_match_a_z_d | apply class_match_hyphen].
Qed.

Lemma specUsernameRegex_shape (up : N -> N) (s : jsstring) :
  test up false specUsernameRegex s = shape isAlnum isHyphen s.
Proof.
  change specUsernameRegex with (handleRegex A_Za_z0_9 GitHubConnect.hyphen).
  rewrite test_handleRegex.
  apply shape_ext; intros c; [apply class_match_A_Za_z0_9 | apply class_match_hyphen].
Qed.

(** The pattern of the source, with its i flag, and the pattern of the
    specification accept the same strings, whatever the Unicode tables. *)
Lemma usernameRegex_spec (up : N -> N) (s : jsstring) :
  test up true GitHubConnect.usernameRegex s = test up false specUsernameRegex s.
Proof. rewrite usernameRegex_shape, specUsernameRegex_shape. reflexivity. Qed.

(** Both are the grammar in words. *)
Lemma usernameRegex_grammar (up : N -> N) (s : jsstring) :
  test up true GitHubConnect.usernameRegex s = true <-> handleGrammar s.
Proof. rewrite usernameRegex_shape. apply shape_grammar. Qed.

Lemma isAlnum_not_white (c : N) : isAlnum c = true -> isWhiteSpace c = false.
Proof.
  intros H.
  assert (Hin : In c (members [(48, 122)%N])).
  { apply In_members. exists 48%N, 122%N. split; [left; reflexivity|].
    unfold isAlnum in H. lia. }
  assert (Hall : forallb (fun x => negb (isWhiteSpace x)) (members [(48, 122)%N]) = true)
    by (vm_compute; reflexivity).
  rewrite forallb_forall in Hall. apply Hall in Hin.
  apply negb_true_iff. exact Hin.
Qed.

Lemma shape_not_white (s : jsstring) :
  shape isAlnum isHyphen s = true -> forallb isWhiteSpace s = false.
Proof.
  destruct s as [|c r]; cbn [shape forallb]; [discriminate|].
  intros H. apply andb_true_iff in H as [Ha _].
  rewrite (isAlnum_not_white _ Ha). reflexivity.
Qed.

(** The pattern of the specification is the grammar in words. *)
Lemma specUsernameRegex_grammar (up : N -> N) (s : jsstring) :
  test up false specUsernameRegex s = true <-> handleGrammar s.
Proof. rewrite specUsernameRegex_shape. apply shape_grammar. Qed.

(** C7. [validateUsername] accepts exactly the handles that match
    [^[A-Za-z0-9](?:[A-Za-z0-9]|-(?=[A-Za-z0-9])){0,38}$], which are the
    strings of 1 to 39 letters, digits and hyphens with no hyphen first,
    last or next to another hyphen; it answers Empty exactly on the empty
    string and on strings of white space only, and InvalidFormat on every
    other handle. *)
Theorem validateUsername_verdict (toUpperCase : N -> N) (handle : jsstring) :
  (GitHubConnect.validate toUpperCase handle = GitHubConnect.Accepted <->
     test toUpperCase false specUsernameRegex handle = true)
  /\ (test toUpperCase false specUsernameRegex handle = true <-> handleGrammar handle)
  /\ (GitHubConnect.validate toUpperCase handle = GitHubConnect.Empty <->
        forallb isWhiteSpace handle = true)
  /\ (GitHubConnect.validate toUpperCase handle = GitHubConnect.InvalidFormat <->
        test toUpperCase false specUsernameRegex handle = false
        /\ forallb isWhiteSpace handle = false).
Proof.
  split; [|split; [apply specUsernameRegex_grammar|]];
    unfold GitHubConnect.validate, GitHubConnect.validateUsername;
    rewrite trim_truthy, negb_involutive, usernameRegex_spec;
    pose proof (shape_not_white handle) as NW;
    rewrite <- (specUsernameRegex_shape toUpperCase) in NW;
    destruct (forallb isWhiteSpace handle);
    destruct (test toUpperCase false specUsernameRegex handle);
    try (specialize (NW eq_refl); discriminate);
    vm_compute;
    (repeat split; intros; try discriminate; try reflexivity; intuition discriminate).
Qed.

(** The three verdicts on concrete handles. *)
Lemma validateUsername_verdict_witness :
  GitHubConnect.validate (fun c => c) (lit "octocat") = GitHubConnect.Accepted
  /\ GitHubConnect.validate (fun c => c) (lit "   ") = GitHubConnect.Empty
  /\ GitHubConnect.validate (fun c => c) (lit "-bad-") = GitHubConnect.InvalidFormat.
Proof.
  split; [|split].
  - apply (proj1 (validateUsername_verdict _ _)). vm_compute. reflexivity.
  - apply (proj1 (proj2 (proj2 (validateUsername_verdict _ _)))). vm_compute. reflexivity.
  - apply (proj2 (proj2 (proj2 (validateUsername_verdict _ _)))).
    split; vm_compute; reflexivity.
Defined.

(* ----------------------------------------------------------------- *)
(** ** AnalysisOrchestrator ([handleGitHubConnect]) *)

Ltac unfold_handler :=
  unfold observed, submitUsername, App.handleGitHubConnect, call_with_surplus,
    Api.uploadResume, Api.analyzeGitHub, Api.intercepted, perform.

Ltac step_handler := cbn [bind try_catch exec].

Ltac fold_requests :=
  repeat match goal with
         | |- context [mkRequest (lit "/resume/analyze") (FormData [(_, FormFile ?f)]) _] =>
             change (mkRequest (lit "/resume/analyze") (FormData [(lit "resume", FormFile f)])
                       (lit "multipart/form-data")) with (resumeRequest f)
         | |- context [mkRequest (lit "/github/analyze") (JsonObject [(_, ?u)]) _] =>
             change (mkRequest (lit "/github/analyze") (JsonObject [(lit "username", u)])
                       (lit "application/json")) with (gitHubRequest u)
         end.

Ltac finish_run :=
  cbn [finalState trace outcome fst snd network alerts emit app List.filter flat_map
       isNetwork settlement apply step twinData isProcessing afterStageA];
  reflexivity.

Section Runs.

Variable B : backend.
Variable st : AppState.
Variable username : jsstring.

(** Stage A is outstanding. *)
Lemma run_stageA_pending (file : File) :
  resume (twinData st) = Some file ->
  resumeService B (resumeRequest file) = None ->
  observed (submitUsername B st username)
  = (mkApp (step st) (submitted st username) true,
     [Requested (resumeRequest file)], [], Suspended).
Proof.
  intros Hres HA. unfold_handler. rewrite Hres. step_handler. fold_requests.
  rewrite HA. finish_run.
Qed.

(** Stage A has settled, Stage B is outstanding. *)
Lemma run_stageB_pending (file : File) (oa : settled ResumeAnalysisResponse) :
  resume (twinData st) = Some file ->
  resumeService B (resumeRequest file) = Some oa ->
  gitHubService B (gitHubRequest username) = None ->
  observed (submitUsername B st username)
  = (mkApp (step st) (afterStageA oa (submitted st username)) true,
     [Requested (resumeRequest file); settlement (resumeRequest file) oa;
      Requested (gitHubRequest username)], [], Suspended).
Proof.
  intros Hres HA HB. unfold_handler. rewrite Hres. step_handler. fold_requests.
  rewrite HA. destruct oa as [ra | ea]; step_handler; fold_requests;
    rewrite HB; finish_run.
Qed.

(** Stage A has settled, Stage B has failed. *)
Lemma run_stageB_failed (file : File) (oa : settled ResumeAnalysisResponse)
    (ob : settled GitHubAnalysisResponse) (e : JsError) :
  resume (twinData st) = Some file ->
  resumeService B (resumeRequest file) = Some oa ->
  gitHubService B (gitHubRequest username) = Some ob ->
  stageB_failure ob = Some e ->
  observed (submitUsername B st username)
  = (mkApp (step st) (afterStageA oa (submitted st username)) false,
     [Requested (resumeRequest file); settlement (resumeRequest file) oa;
      Requested (gitHubRequest username); settlement (gitHubRequest username) ob],
     [failureAlert e], Returned tt).
Proof.
  intros Hres HA HB Hf. unfold_handler. rewrite Hres. step_handler. fold_requests.
  rewrite HA. destruct oa as [ra | ea]; step_handler; fold_requests; rewrite HB;
    destruct ob as [rb | eb]; cbn [stageB_failure] in Hf; step_handler;
    try (destruct (success rb); [discriminate Hf|]);
    injection Hf as <-; step_handler; finish_run.
Qed.

(** Stage A has settled, Stage B has succeeded. *)
Lemma run_stageB_succeeded (file : File) (oa : settled ResumeAnalysisResponse)
    (rb : GitHubAnalysisResponse) :
  resume (twinData st) = Some file ->
  resumeService B (resumeRequest file) = Some oa ->
  gitHubService B (gitHubRequest username) = Some (Fulfilled rb) ->
  success rb = true ->
  observed (submitUsername B st username)
  = (mkApp 3 (App.with_githubData (data rb)
                (App.with_githubUsername username
                   (afterStageA oa (submitted st username)))) false,
     [Requested (resumeRequest file); settlement (resumeRequest file) oa;
      Requested (gitHubRequest username); Resolved (gitHubRequest username)],
     [], Returned tt).
Proof.
  intros Hres HA HB Hs. unfold_handler. rewrite Hres. step_handler. fold_requests.
  rewrite HA. destruct oa as [ra | ea]; step_handler; fold_requests; rewrite HB;
    step_handler; rewrite Hs; step_handler; finish_run.
Qed.

(** Without a stored resume Stage A is skipped. *)
Lemma run_no_resume_pending :
  resume (twinData st) = None ->
  gitHubService B (gitHubRequest username) = None ->
  observed (submitUsername B st username)
  = (mkApp (step st) (submitted st username) true,
     [Requested (gitHubRequest username)], [], Suspended).
Proof.
  intros Hres HB. unfold_handler. rewrite Hres. step_handler. fold_requests.
  rewrite HB. finish_run.
Qed.

Lemma run_no_resume_failed (ob : settled GitHubAnalysisResponse) (e : JsError) :
  resume (twinData st) = None ->
  gitHubService B (gitHubRequest username) = Some ob ->
  stageB_failure ob = Some e ->
  observed (submitUsername B st username)
  = (mkApp (step st) (submitted st username) false,
     [Requested (gitHubRequest username); settlement (gitHubRequest username) ob],
     [failureAlert e], Returned tt).
Proof.
  intros Hres HB Hf. unfold_handler. rewrite Hres. step_handler. fold_requests.
  rewrite HB. destruct ob as [rb | eb]; cbn [stageB_failure] in Hf; step_handler;
    try (destruct (success rb); [discriminate Hf|]);
    injection Hf as <-; step_handler; finish_run.
Qed.

Lemma run_no_resume_succeeded (rb : GitHubAnalysisResponse) :
  resume (twinData st) = None ->
  gitHubService B (gitHubRequest username) = Some (Fulfilled rb) ->
  success rb = true ->
  observed (submitUsername B st username)
  = (mkApp 3 (App.with_githubData (data rb)
                (App.with_githubUsername username (submitted st username))) false,
     [Requested (gitHubRequest username); Resolved (gitHubRequest username)],
     [], Returned tt).
Proof.
  intros Hres HB Hs. unfold_handler. rewrite Hres. step_handler. fold_requests.
  rewrite HB. step_handler. rewrite Hs. step_handler. finish_run.
Qed.

End Runs.

Lemma observed_inv (r : AppState * list event * completion unit)
    (s : AppState) (n : list event) (a : list jsstring) (o : completion unit) :
  observed r = (s, n, a, o) ->
  finalState r = s /\ network (trace r) = n /\ alerts (trace r) = a /\ outcome r = o.
Proof. unfold observed. intros E. injection E as -> -> -> ->. auto. Qed.

(** A run with a stored resume issues the call to /resume/analyze first. *)
Lemma run_starts_with_stageA (B : backend) (st : AppState) (file : File)
    (username : jsstring) :
  resume (twinData st) = Some file ->
  exists rest : list event,
    network (trace (submitUsername B st username))
    = Requested (resumeRequest file) :: rest.
Proof.
  intros Hres.
  destruct (resumeService B (resumeRequest file)) as [oa|] eqn:HA.
  - destruct (gitHubService B (gitHubRequest username)) as [ob|] eqn:HB.
    + destruct (stageB_failure ob) as [e|] eqn:Hf.
      * destruct (observed_inv _ _ _ _ _
                    (run_stageB_failed B st username file oa ob e Hres HA HB Hf))
          as (_ & -> & _). eexists; reflexivity.
      * destruct ob as [rb | eb]; [|discriminate Hf]. cbn [stageB_failure] in Hf.
        destruct (success rb) eqn:Hs; [|discriminate Hf].
        destruct (observed_inv _ _ _ _ _
                    (run_stageB_succeeded B st username file oa rb Hres HA HB Hs))
          as (_ & -> & _). eexists; reflexivity.
    + destruct (observed_inv _ _ _ _ _
                  (run_stageB_pending B st username file oa Hres HA HB))
        as (_ & -> & _). eexists; reflexivity.
  - destruct (observed_inv _ _ _ _ _ (run_stageA_pending B st username file Hres HA))
      as (_ & -> & _). eexists; reflexivity.
Qed.

(** C1. In a run with a stored resume file the call to /resume/analyze is
    issued first; the call to /github/analyze is issued only after the first
    one has settled, by fulfilment or by rejection, and is not issued at all
    while the first one is outstanding. *)
Theorem stageA_settles_before_stageB (B : backend) (st : AppState) (file : File)
    (username : jsstring) :
  resume (twinData st) = Some file ->
  network (trace (submitUsername B st username))
  = match resumeService B (resumeRequest file) with
    | None => [Requested (resumeRequest file)]
    | Some oa =>
        Requested (resumeRequest file) :: settlement (resumeRequest file) oa
        :: Requested (gitHubRequest username)
        :: match gitHubService B (gitHubRequest username) with
           | None => []
           | Some ob => [settlement (gitHubRequest username) ob]
           end
    end.
Proof.
  intros Hres.
  destruct (resumeService B (resumeRequest file)) as [oa|] eqn:HA.
  - destruct (gitHubService B (gitHubRequest username)) as [ob|] eqn:HB.
    + destruct (stageB_failure ob) as [e|] eqn:Hf.
      * apply (observed_inv _ _ _ _ _ (run_stageB_failed B st username file oa ob e Hres HA HB Hf)).
      * destruct ob as [rb | eb]; [|discriminate Hf]. cbn [stageB_failure] in Hf.
        destruct (success rb) eqn:Hs; [|discriminate Hf].
        apply (observed_inv _ _ _ _ _ (run_stageB_succeeded B st username file oa rb Hres HA HB Hs)).
    + apply (observed_inv _ _ _ _ _ (run_stageB_pending B st username file oa Hres HA HB)).
  - apply (observed_inv _ _ _ _ _ (run_stageA_pending B st username file Hres HA)).
Qed.

(** A run on the sample page, both calls answered. *)
Lemma stageA_settles_before_stageB_witness :
  network (trace (submitUsername
                    (answering (Rejected (newError (lit "Network Error")))
                               (Fulfilled (mkResponse true sampleGitHubData None)))
                    afterUpload octocat))
  = [Requested (resumeRequest resume_pdf); Failed (resumeRequest resume_pdf);
     Requested (gitHubRequest octocat); Resolved (gitHubRequest octocat)].
Proof.
  exact (stageA_settles_before_stageB
           (answering (Rejected (newError (lit "Network Error")))
                      (Fulfilled (mkResponse true sampleGitHubData None)))
           afterUpload resume_pdf octocat eq_refl).
Defined.

(** Every settled Stage B either fails or is a success with a payload. *)
Lemma stageB_failure_none (ob : settled GitHubAnalysisResponse) :
  stageB_failure ob = None -> exists rb, ob = Fulfilled rb /\ success rb = true.
Proof.
  destruct ob as [rb | eb]; cbn [stageB_failure]; [|discriminate].
  destruct (success rb) eqn:Hs; [|discriminate]. intros _. exists rb. auto.
Qed.

(** A run whose Stage B fails, with or without a stored resume. *)
Lemma run_failed (B : backend) (st : AppState) (username : jsstring)
    (ob : settled GitHubAnalysisResponse) (e : JsError) :
  stageA_settles B st ->
  gitHubService B (gitHubRequest username) = Some ob ->
  stageB_failure ob = Some e ->
  exists t : DigitalTwinData,
    observed (submitUsername B st username)
    = (mkApp (step st) t false,
       network (trace (submitUsername B st username)), [failureAlert e], Returned tt)
    /\ t = match resume (twinData st) with
           | Some file =>
               match resumeService B (resumeRequest file) with
               | Some oa => afterStageA oa (submitted st username)
               | None => submitted st username
               end
           | None => submitted st username
           end.
Proof.
  unfold stageA_settles. intros HA HB Hf.
  destruct (resume (twinData st)) as [file|] eqn:Hres.
  - destruct (resumeService B (resumeRequest file)) as [oa|] eqn:HA'; [|congruence].
    exists (afterStageA oa (submitted st username)). split; [|reflexivity].
    pose proof (run_stageB_failed B st username file oa ob e Hres HA' HB Hf) as E.
    rewrite E. destruct (observed_inv _ _ _ _ _ E) as (_ & -> & _). reflexivity.
  - exists (submitted st username). split; [|reflexivity].
    pose proof (run_no_resume_failed B st username ob e Hres HB Hf) as E.
    rewrite E. destruct (observed_inv _ _ _ _ _ E) as (_ & -> & _). reflexivity.
Qed.

(** C2 (the code departs from it).  When /resume/analyze answers 2xx with
    [success: false], [handleGitHubConnect] does not treat Stage A as
    failed: the [data] of that response is stored as [resumeAnalysis],
    whatever Stage B then does. *)
Theorem stageA_success_false_is_stored (B : backend) (st : AppState) (file : File)
    (username : jsstring) (ra : ResumeAnalysisResponse)
    (ob : settled GitHubAnalysisResponse) :
  resume (twinData st) = Some file ->
  resumeService B (resumeRequest file) = Some (Fulfilled ra) ->
  success ra = false ->
  gitHubService B (gitHubRequest username) = Some ob ->
  resumeAnalysis (twinData (finalState (submitUsername B st username)))
  = Some (data ra).
Proof.
  intros Hres HA _ HB.
  destruct (stageB_failure ob) as [e|] eqn:Hf.
  - destruct (observed_inv _ _ _ _ _ (run_stageB_failed B st username file _ ob e Hres HA HB Hf))
      as (-> & _). reflexivity.
  - destruct (stageB_failure_none _ Hf) as (rb & -> & Hs).
    destruct (observed_inv _ _ _ _ _ (run_stageB_succeeded B st username file _ rb Hres HA HB Hs))
      as (-> & _). reflexivity.
Qed.

(** The sample page, /resume/analyze answering [success: false]. *)
Lemma stageA_success_false_is_stored_witness :
  resumeAnalysis
    (twinData (finalState (submitUsername
       (answering (Fulfilled (mkResponse false sampleResumeData (Some (lit "Invalid file"))))
                  (Fulfilled (mkResponse true sampleGitHubData None)))
       afterUpload octocat)))
  = Some sampleResumeData.
Proof.
  exact (stageA_success_false_is_stored
           (answering (Fulfilled (mkResponse false sampleResumeData (Some (lit "Invalid file"))))
                      (Fulfilled (mkResponse true sampleGitHubData None)))
           afterUpload resume_pdf octocat
           (mkResponse false sampleResumeData (Some (lit "Invalid file")))
           (Fulfilled (mkResponse true sampleGitHubData None))
           eq_refl eq_refl eq_refl eq_refl).
Defined.

(** The half of C2 that the code does implement: a 2xx answer of
    /github/analyze with [success: false] fails the run like a rejection. *)
Lemma stageB_success_false_fails (B : backend) (st : AppState) (username : jsstring)
    (rb : GitHubAnalysisResponse) :
  stageA_settles B st ->
  gitHubService B (gitHubRequest username) = Some (Fulfilled rb) ->
  success rb = false ->
  alerts (trace (submitUsername B st username))
  = [failureAlert (newError (App.failureMessage rb))]
  /\ step (finalState (submitUsername B st username)) = step st.
Proof.
  intros HA HB Hs.
  assert (Hf : stageB_failure (Fulfilled rb) = Some (newError (App.failureMessage rb)))
    by (cbn [stageB_failure]; rewrite Hs; reflexivity).
  destruct (run_failed B st username _ _ HA HB Hf) as (t & E & _).
  destruct (observed_inv _ _ _ _ _ E) as (-> & _ & -> & _). auto.
Qed.

(** C3 (the code departs from it).  [handleGitHubConnect] calls
    [uploadResume] with the file and the username, but [uploadResume] binds
    the file only: the form posted to /resume/analyze has the one entry
    [resume] and no [username] entry, whatever handle was submitted. *)
Theorem stageA_request_has_no_username (B : backend) (st : AppState) (file : File)
    (username : jsstring) :
  resume (twinData st) = Some file ->
  exists (req : request) (rest : list event),
    network (trace (submitUsername B st username)) = Requested req :: rest
    /\ url req = lit "/resume/analyze"
    /\ body req = FormData [ (lit "resume", FormFile file) ]
    /\ getAll (lit "username") (body req) = [].
Proof.
  intros Hres. destruct (run_starts_with_stageA B st file username Hres) as (rest & E).
  exists (resumeRequest file), rest. rewrite E. repeat split.
Qed.

(** The sample page with the handle octocat. *)
Lemma stageA_request_has_no_username_witness :
  exists (req : request) (rest : list event),
    network (trace (submitUsername
                      (answering (Fulfilled (mkResponse true sampleResumeData None))
                                 (Fulfilled (mkResponse true sampleGitHubData None)))
                      afterUpload octocat)) = Requested req :: rest
    /\ url req = lit "/resume/analyze"
    /\ body req = FormData [ (lit "resume", FormFile resume_pdf) ]
    /\ getAll (lit "username") (body req) = [].
Proof.
  exact (stageA_request_has_no_username
           (answering (Fulfilled (mkResponse true sampleResumeData None))
                      (Fulfilled (mkResponse true sampleGitHubData None)))
           afterUpload resume_pdf octocat eq_refl).
Defined.

(** A run whose Stage A is rejected and whose Stage B succeeds. *)
Lemma run_partial (B : backend) (st : AppState) (file : File) (username : jsstring)
    (ea : JsError) (rb : GitHubAnalysisResponse) :
  resume (twinData st) = Some file ->
  resumeService B (resumeRequest file) = Some (Rejected ea) ->
  gitHubService B (gitHubRequest username) = Some (Fulfilled rb) ->
  success rb = true ->
  observed (submitUsername B st username)
  = (mkApp 3 (App.with_githubData (data rb)
                (App.with_githubUsername username (submitted st username))) false,
     [Requested (resumeRequest file); Failed (resumeRequest file);
      Requested (gitHubRequest username); Resolved (gitHubRequest username)],
     [], Returned tt).
Proof.
  intros Hres HA HB Hs.
  exact (run_stageB_succeeded B st username file (Rejected ea) rb Hres HA HB Hs).
Qed.

(** C4, as the code has it.  When /resume/analyze is rejected and
    /github/analyze succeeds, the run ends normally without an alert, the
    wizard is on step 3 and no longer processing, [githubData] holds the
    payload of Stage B, and the run stores no [resumeAnalysis]: the field
    keeps the value it had before the run, so it is absent whenever it was
    absent before. *)
Theorem stageA_rejection_does_not_abort (B : backend) (st : AppState) (file : File)
    (username : jsstring) (ea : JsError) (rb : GitHubAnalysisResponse) :
  resume (twinData st) = Some file ->
  resumeService B (resumeRequest file) = Some (Rejected ea) ->
  gitHubService B (gitHubRequest username) = Some (Fulfilled rb) ->
  success rb = true ->
  let r := submitUsername B st username in
  outcome r = Returned tt
  /\ alerts (trace r) = []
  /\ step (finalState r) = 3
  /\ isProcessing (finalState r) = false
  /\ githubData (twinData (finalState r)) = Some (data rb)
  /\ resumeAnalysis (twinData (finalState r)) = resumeAnalysis (twinData st)
  /\ (resumeAnalysis (twinData st) = None ->
      resumeAnalysis (twinData (finalState r)) = None).
Proof.
  intros Hres HA HB Hs r.
  destruct (observed_inv _ _ _ _ _ (run_partial B st file username ea rb Hres HA HB Hs))
    as (Hst & _ & Hal & Hout).
  fold r in Hst, Hal, Hout. rewrite Hst, Hal, Hout.
  cbn [step isProcessing twinData githubData resumeAnalysis
       App.with_githubData App.with_githubUsername submitted].
  repeat split; auto.
Qed.

(** The first submission on the sample page, with /resume/analyze down. *)
Lemma stageA_rejection_does_not_abort_witness :
  let r := submitUsername
             (answering (Rejected (newError (lit "Network Error")))
                        (Fulfilled (mkResponse true sampleGitHubData None)))
             afterUpload octocat in
  step (finalState r) = 3
  /\ githubData (twinData (finalState r)) = Some sampleGitHubData
  /\ resumeAnalysis (twinData (finalState r)) = None.
Proof.
  intros r.
  destruct (stageA_rejection_does_not_abort
              (answering (Rejected (newError (lit "Network Error")))
                         (Fulfilled (mkResponse true sampleGitHubData None)))
              afterUpload resume_pdf octocat (newError (lit "Network Error"))
              (mkResponse true sampleGitHubData None)
              eq_refl eq_refl eq_refl eq_refl)
    as (_ & _ & H3 & _ & Hg & _ & Hn).
  split; [exact H3 | split; [exact Hg | exact (Hn eq_refl)]].
Defined.

(** C4 as stated fails on a retry.  On the sample page a first submission
    has /resume/analyze succeed and /github/analyze fail; the page stays on
    step 2 with the resume analysis stored.  On the second submission
    /resume/analyze is rejected and /github/analyze succeeds: the wizard
    reaches step 3 with [resumeAnalysis] present. *)
Lemma stageA_rejection_keeps_earlier_analysis :
  let first := answering (Fulfilled (mkResponse true sampleResumeData None))
                         (Rejected (newError (lit "Network Error"))) in
  let second := answering (Rejected (newError (lit "Network Error")))
                          (Fulfilled (mkResponse true sampleGitHubData None)) in
  let st1 := finalState (submitUsername first afterUpload octocat) in
  let r := submitUsername second st1 octocat in
  (step st1 = 2 /\ isProcessing st1 = false /\ resume (twinData st1) = Some resume_pdf)
  /\ resumeService second (resumeRequest resume_pdf)
     = Some (Rejected (newError (lit "Network Error")))
  /\ gitHubService second (gitHubRequest octocat)
     = Some (Fulfilled (mkResponse true sampleGitHubData None))
  /\ network (trace r)
     = [Requested (resumeRequest resume_pdf); Failed (resumeRequest resume_pdf);
        Requested (gitHubRequest octocat); Resolved (gitHubRequest octocat)]
  /\ step (finalState r) = 3
  /\ githubData (twinData (finalState r)) = Some sampleGitHubData
  /\ resumeAnalysis (twinData (finalState r)) = Some sampleResumeData
  /\ resumeAnalysis (twinData (finalState r)) <> None.
Proof.
  vm_compute. repeat split; discriminate.
Qed.

(** C5. When Stage B fails, by rejection or by [success: false], the
    handler ends after one alert that carries the cause, the wizard is still
    on step 2, [isProcessing] is false again and the stored resume file is
    the one stored before. *)
Theorem stageB_failure_keeps_step (B : backend) (st : AppState) (username : jsstring)
    (ob : settled GitHubAnalysisResponse) (e : JsError) :
  step st = 2 ->
  stageA_settles B st ->
  gitHubService B (gitHubRequest username) = Some ob ->
  stageB_failure ob = Some e ->
  let r := submitUsername B st username in
  outcome r = Returned tt
  /\ alerts (trace r) = [failureAlert e]
  /\ step (finalState r) = 2
  /\ isProcessing (finalState r) = false
  /\ resume (twinData (finalState r)) = resume (twinData st).
Proof.
  intros H2 HA HB Hf r.
  destruct (run_failed B st username ob e HA HB Hf) as (t & E & Ht).
  destruct (observed_inv _ _ _ _ _ E) as (Hst & _ & Hal & Hout).
  fold r in Hst, Hal, Hout. rewrite Hst, Hal, Hout.
  cbn [step isProcessing twinData]. repeat split; auto.
  rewrite Ht.
  destruct (resume (twinData st)) as [file|] eqn:Hres;
    [destruct (resumeService B (resumeRequest file)) as [[ra|ea]|]|];
    cbn [afterStageA submitted App.with_resumeAnalysis App.with_githubUsername resume];
    auto.
Qed.

(** The sample page, /github/analyze answering [success: false]. *)
Lemma stageB_failure_keeps_step_witness :
  let r := submitUsername
             (answering (Fulfilled (mkResponse true sampleResumeData None))
                        (Fulfilled (mkResponse false sampleGitHubData
                                      (Some (lit "User not found")))))
             afterUpload octocat in
  outcome r = Returned tt
  /\ alerts (trace r) = [lit "GitHub analysis failed: User not found"]
  /\ step (finalState r) = 2
  /\ isProcessing (finalState r) = false
  /\ resume (twinData (finalState r)) = Some resume_pdf.
Proof.
  exact (stageB_failure_keeps_step
           (answering (Fulfilled (mkResponse true sampleResumeData None))
                      (Fulfilled (mkResponse false sampleGitHubData
                                    (Some (lit "User not found")))))
           afterUpload octocat
           (Fulfilled (mkResponse false sampleGitHubData (Some (lit "User not found"))))
           (newError (lit "User not found"))
           eq_refl ltac:(vm_compute; discriminate) eq_refl eq_refl).
Defined.

(** C9. A failed run is not rolled back: the final state is the state the
    run had reached when Stage B failed, with [isProcessing] false.  The
    handle stored at submission stays in [githubUsername]; the [data] of a
    Stage A that was fulfilled stays in [resumeAnalysis]; the step, the
    resume file and [githubData] are the ones from before the run. *)
Theorem failed_run_is_not_rolled_back (B : backend) (st : AppState)
    (username : jsstring) (ob : settled GitHubAnalysisResponse) (e : JsError) :
  stageA_settles B st ->
  gitHubService B (gitHubRequest username) = Some ob ->
  stageB_failure ob = Some e ->
  let st' := finalState (submitUsername B st username) in
  githubUsername (twinData st') = Some username
  /\ (forall file ra,
        resume (twinData st) = Some file ->
        resumeService B (resumeRequest file) = Some (Fulfilled ra) ->
        resumeAnalysis (twinData st') = Some (data ra))
  /\ (forall file ea,
        resume (twinData st) = Some file ->
        resumeService B (resumeRequest file) = Some (Rejected ea) ->
        resumeAnalysis (twinData st') = resumeAnalysis (twinData st))
  /\ isProcessing st' = false
  /\ step st' = step st
  /\ resume (twinData st') = resume (twinData st)
  /\ githubData (twinData st') = githubData (twinData st)
  /\ analysis (twinData st') = analysis (twinData st).
Proof.
  intros HA HB Hf st'.
  destruct (run_failed B st username ob e HA HB Hf) as (t & E & Ht).
  destruct (observed_inv _ _ _ _ _ E) as (Hst & _).
  fold st' in Hst. rewrite Hst. cbn [step isProcessing twinData]. rewrite Ht.
  destruct (resume (twinData st)) as [file|] eqn:Hres.
  - destruct (resumeService B (resumeRequest file)) as [[ra|ea]|] eqn:HA';
      cbn [afterStageA submitted App.with_resumeAnalysis App.with_githubUsername
           resume resumeAnalysis githubUsername githubData analysis];
      repeat split; auto; intros f x Hf' Hx; injection Hf' as <-;
      rewrite HA' in Hx; try discriminate Hx; injection Hx as <-; reflexivity.
  - cbn [submitted App.with_githubUsername
         resume resumeAnalysis githubUsername githubData analysis].
    repeat split; auto; intros f x Hf'; discriminate Hf'.
Qed.

(** The sample page: Stage A fulfilled, /github/analyze rejected. *)
Lemma failed_run_is_not_rolled_back_witness :
  let st' := finalState (submitUsername
               (answering (Fulfilled (mkResponse true sampleResumeData None))
                          (Rejected (newError (lit "Network Error"))))
               afterUpload octocat) in
  githubUsername (twinData st') = Some octocat
  /\ resumeAnalysis (twinData st') = Some sampleResumeData
  /\ isProcessing st' = false
  /\ step st' = 2.
Proof.
  intros st'.
  destruct (failed_run_is_not_rolled_back
              (answering (Fulfilled (mkResponse true sampleResumeData None))
                         (Rejected (newError (lit "Network Error"))))
              afterUpload octocat (Rejected (newError (lit "Network Error")))
              (newError (lit "Network Error"))
              ltac:(vm_compute; discriminate) eq_refl eq_refl)
    as (Hu & Hra & _ & Hp & Hs & _).
  split; [exact Hu | split; [exact (Hra resume_pdf _ eq_refl eq_refl) | split; [exact Hp | exact Hs]]].
Defined.

(* ----------------------------------------------------------------- *)
(** ** Single flight ([GitHubConnect] under [App]) *)

(** A run that is waiting on a call has [isProcessing] set. *)
Lemma suspended_run_is_processing (B : backend) (st : AppState) (username : jsstring) :
  outcome (submitUsername B st username) = Suspended ->
  isProcessing (finalState (submitUsername B st username)) = true.
Proof.
  intros Hsus.
  destruct (resume (twinData st)) as [file|] eqn:Hres.
  - destruct (resumeService B (resumeRequest file)) as [oa|] eqn:HA.
    + destruct (gitHubService B (gitHubRequest username)) as [ob|] eqn:HB.
      * exfalso. destruct (stageB_failure ob) as [e|] eqn:Hf.
        -- destruct (observed_inv _ _ _ _ _
                       (run_stageB_failed B st username file oa ob e Hres HA HB Hf))
             as (_ & _ & _ & Ho). congruence.
        -- destruct (stageB_failure_none _ Hf) as (rb & -> & Hs).
           destruct (observed_inv _ _ _ _ _
                       (run_stageB_succeeded B st username file oa rb Hres HA HB Hs))
             as (_ & _ & _ & Ho). congruence.
      * destruct (observed_inv _ _ _ _ _
                    (run_stageB_pending B st username file oa Hres HA HB)) as (-> & _).
        reflexivity.
    + destruct (observed_inv _ _ _ _ _
                  (run_stageA_pending B st username file Hres HA)) as (-> & _).
      reflexivity.
  - destruct (gitHubService B (gitHubRequest username)) as [ob|] eqn:HB.
    + exfalso. destruct (stageB_failure ob) as [e|] eqn:Hf.
      * destruct (observed_inv _ _ _ _ _
                    (run_no_resume_failed B st username ob e Hres HB Hf))
          as (_ & _ & _ & Ho). congruence.
      * destruct (stageB_failure_none _ Hf) as (rb & -> & Hs).
        destruct (observed_inv _ _ _ _ _
                    (run_no_resume_succeeded B st username rb Hres HB Hs))
          as (_ & _ & _ & Ho). congruence.
    + destruct (observed_inv _ _ _ _ _
                  (run_no_resume_pending B st username Hres HB)) as (-> & _).
      reflexivity.
Qed.

(** C8. While [isProcessing] is true the text input and the submit button
    are disabled, and a submission attempt changes nothing: no call to
    [onConnect], no run, no outbound request.  [isProcessing] is true for as
    long as a run is waiting on one of its calls. *)
Theorem no_submission_while_processing (toUpperCase : N -> N) :
  (forall (B : backend) (st : AppState) (local : GitHubConnect.State),
      isProcessing st = true ->
      GitHubConnect.inputDisabled (isProcessing st) local = true
      /\ GitHubConnect.buttonDisabled (isProcessing st) local = true
      /\ GitHubConnect.submitAttempt toUpperCase (isProcessing st) local = (local, None)
      /\ userSubmit toUpperCase B st local = (st, local, []))
  /\ (forall (B : backend) (st : AppState) (username : jsstring),
        outcome (submitUsername B st username) = Suspended ->
        isProcessing (finalState (submitUsername B st username)) = true).
Proof.
  split; [|apply suspended_run_is_processing].
  intros B st local Hp. unfold userSubmit, GitHubConnect.submitAttempt,
    GitHubConnect.buttonDisabled, GitHubConnect.inputDisabled.
  rewrite Hp. cbn [orb]. repeat split. destruct (Nat.eqb (step st) 2); reflexivity.
Qed.

(** The sample page while its first run waits for /resume/analyze: a
    second attempt with a valid handle in the box changes nothing. *)
Lemma no_submission_while_processing_witness :
  let pendingBackend := mkBackend (fun _ => None) (fun _ => None) in
  let r := submitUsername pendingBackend afterUpload octocat in
  outcome r = Suspended
  /\ isProcessing (finalState r) = true
  /\ userSubmit (fun c => c)
       (answering (Fulfilled (mkResponse true sampleResumeData None))
                  (Fulfilled (mkResponse true sampleGitHubData None)))
       (finalState r) (GitHubConnect.mkState octocat (lit ""))
     = (finalState r, GitHubConnect.mkState octocat (lit ""), []).
Proof.
  intros pendingBackend r.
  assert (Hs : outcome r = Suspended) by reflexivity.
  pose proof (proj2 (no_submission_while_processing (fun c => c))
                pendingBackend afterUpload octocat Hs) as Hp.
  split; [exact Hs | split; [exact Hp|]].
  apply (proj1 (no_submission_while_processing (fun c => c))). exact Hp.
Defined.

(* ----------------------------------------------------------------- *)
(** ** ResultExporter ([handleExport]) *)

Lemma pad_length (w : nat) (n : N) : List.length (ResultsDisplay.pad w n) = w.
Proof.
  revert n; induction w as [|w IH]; intros n; cbn [ResultsDisplay.pad List.length].
  - reflexivity.
  - rewrite length_app, IH. cbn [List.length]. lia.
Qed.

(** Up to the year 9999 the time stamp has the 24 code units of
    [YYYY-MM-DDTHH:mm:ss.sssZ]. *)
Lemma toISOString_length (d : ResultsDisplay.Date) :
  (ResultsDisplay.fullYear d <= 9999)%N ->
  List.length (ResultsDisplay.toISOString d) = 24.
Proof.
  intros H. unfold ResultsDisplay.toISOString.
  destruct (N.leb_spec (ResultsDisplay.fullYear d) 9999); [|lia].
  rewrite !length_app, !pad_length. reflexivity.
Qed.



(* ----------------------------------------------------------------- *)
(** ** The upload step ([ResumeUpload]) *)

Lemma validateFile_ok (f : File) :
  fst (ResumeUpload.validateFile f) = true <-> validFile f.
Proof.
  unfold validFile, ResumeUpload.validate.
  destruct (ResumeUpload.validateFile f) as [ok msg]. cbn [fst].
  destruct ok; [tauto|]. split; [discriminate|].
  destruct (jsstring_eqb msg _); discriminate.
Qed.

Lemma validateFile_message (f : File) :
  ResumeUpload.validateFile f = (true, lit "")
  \/ (fst (ResumeUpload.validateFile f) = false
      /\ truthy (snd (ResumeUpload.validateFile f)) = true).
Proof.
  unfold ResumeUpload.validateFile.
  destruct (negb _); [right; split; reflexivity|].
  destruct (_ <? _)%N; [right; split; reflexivity | left; reflexivity].
Qed.

(** An accepted first file becomes the selection. *)
Lemma selectFile_accepts (st : ResumeUpload.State) (file : File) (others : list File) :
  validFile file ->
  ResumeUpload.selectFile st (file :: others) = ResumeUpload.mkState (Some file) (lit "")
  /\ ResumeUpload.uploadButtonRendered (ResumeUpload.selectFile st (file :: others)) = true
  /\ ResumeUpload.handleUpload (ResumeUpload.selectFile st (file :: others)) = Some file.
Proof.
  intros Hv. apply validateFile_ok in Hv.
  destruct (validateFile_message file) as [E | [E _]]; [|congruence].
  unfold ResumeUpload.selectFile. rewrite E. repeat split.
Qed.

(** X1. Only the first file of a drop or of the file dialog counts.  If
    [validateFile] accepts it, it becomes the selection, the error is
    cleared and the Continue button is rendered.  If not, the earlier
    selection stays, an error text is set and the Continue button is not
    rendered, even when the earlier selection was valid.  An empty list
    changes nothing. *)
Theorem selectFile_behaviour (st : ResumeUpload.State) (file : File)
    (others : list File) :
  (validFile file ->
     ResumeUpload.selectFile st (file :: others)
     = ResumeUpload.mkState (Some file) (lit "")
     /\ ResumeUpload.uploadButtonRendered
          (ResumeUpload.selectFile st (file :: others)) = true
     /\ ResumeUpload.handleUpload (ResumeUpload.selectFile st (file :: others))
        = Some file)
  /\ (~ validFile file ->
        ResumeUpload.selectedFile (ResumeUpload.selectFile st (file :: others))
        = ResumeUpload.selectedFile st
        /\ truthy (ResumeUpload.error (ResumeUpload.selectFile st (file :: others)))
           = true
        /\ ResumeUpload.uploadButtonRendered
             (ResumeUpload.selectFile st (file :: others)) = false)
  /\ ResumeUpload.selectFile st [] = st.
Proof.
  split; [|split; [|reflexivity]].
  - apply selectFile_accepts.
  - intros Hv. rewrite <- validateFile_ok in Hv.
    destruct (validateFile_message file) as [E | [E T]];
      [rewrite E in Hv; exfalso; apply Hv; reflexivity|].
    unfold ResumeUpload.selectFile, ResumeUpload.uploadButtonRendered.
    destruct (ResumeUpload.validateFile file) as [ok msg]. cbn [fst snd] in E, T.
    subst ok. cbn [ResumeUpload.selectedFile ResumeUpload.error]. rewrite T.
    repeat split. destruct (ResumeUpload.selectedFile st); reflexivity.
Qed.

(** A valid PDF is selected, then a text file is dropped. *)
Lemma selectFile_behaviour_witness :
  let st := ResumeUpload.selectFile ResumeUpload.initial [resume_pdf] in
  let notes := mkFile (lit "notes.txt") 10 (lit "text/plain") in
  ResumeUpload.handleUpload st = Some resume_pdf
  /\ ResumeUpload.selectedFile (ResumeUpload.selectFile st [notes]) = Some resume_pdf
  /\ ResumeUpload.uploadButtonRendered (ResumeUpload.selectFile st [notes]) = false.
Proof.
  intros st notes.
  destruct (selectFile_behaviour ResumeUpload.initial resume_pdf []) as (Hok & _ & _).
  destruct (Hok eq_refl) as (_ & _ & Hup).
  destruct (selectFile_behaviour st notes []) as (_ & Hbad & _).
  destruct (Hbad ltac:(vm_compute; discriminate)) as (Hsel & _ & Hbtn).
  split; [exact Hup | split; [exact Hsel | exact Hbtn]].
Defined.

(* ----------------------------------------------------------------- *)
(** ** The username step ([GitHubConnect] under [App]) *)

Lemma validateUsername_ok (up : N -> N) (value : jsstring) :
  fst (GitHubConnect.validateUsername up value) = true <-> handleGrammar value.
Proof.
  rewrite <- (usernameRegex_grammar up), usernameRegex_shape.
  unfold GitHubConnect.validateUsername.
  rewrite trim_truthy, negb_involutive, usernameRegex_shape.
  pose proof (shape_not_white value) as NW.
  destruct (forallb isWhiteSpace value); cbn [fst].
  - split; [discriminate|]. intros Hs. specialize (NW Hs). discriminate.
  - destruct (shape isAlnum isHyphen value); cbn [negb fst]; tauto.
Qed.

Lemma validateUsername_error (up : N -> N) (value : jsstring) :
  snd (GitHubConnect.validateUsername up value)
  = if forallb isWhiteSpace value then lit "Please enter a GitHub username"
    else if fst (GitHubConnect.validateUsername up value) then lit ""
         else lit "Please enter a valid GitHub username".
Proof.
  unfold GitHubConnect.validateUsername. rewrite trim_truthy, negb_involutive.
  destruct (forallb isWhiteSpace value); [reflexivity|].
  destruct (test up true GitHubConnect.usernameRegex value); reflexivity.
Qed.

Lemma buttonDisabled_blank (isProcessing : bool) (local : GitHubConnect.State) :
  GitHubConnect.buttonDisabled isProcessing local
  = isProcessing || forallb isWhiteSpace (GitHubConnect.username local).
Proof.
  unfold GitHubConnect.buttonDisabled. rewrite trim_truthy, negb_involutive.
  reflexivity.
Qed.

(** What a submission attempt does, case by case. *)
Lemma userSubmit_cases (up : N -> N) (B : backend) (st : AppState)
    (local : GitHubConnect.State) :
  let u := GitHubConnect.username local in
  userSubmit up B st local
  = if Nat.eqb (step st) 2 then
      if isProcessing st || forallb isWhiteSpace u then (st, local, [])
      else if fst (GitHubConnect.validateUsername up u) then
             (finalState (submitUsername B st u),
              GitHubConnect.mkState u (lit ""), trace (submitUsername B st u))
           else (st, GitHubConnect.mkState u (lit "Please enter a valid GitHub username"),
                 [])
    else (st, local, []).
Proof.
  intros u. unfold userSubmit, GitHubConnect.submitAttempt, GitHubConnect.handleSubmit.
  rewrite buttonDisabled_blank. fold u.
  destruct (Nat.eqb (step st) 2); [|reflexivity].
  destruct (isProcessing st); cbn [orb]; [reflexivity|].
  destruct (forallb isWhiteSpace u) eqn:W; [reflexivity|].
  pose proof (validateUsername_error up u) as E. rewrite W in E.
  destruct (GitHubConnect.validateUsername up u) as [ok msg]. cbn [fst snd] in E |- *.
  subst msg. destruct ok; reflexivity.
Qed.

(** X2. A submission of a text outside the username grammar makes no
    outbound call and leaves the state of [App] as it was; the text stays
    in the box, and when it is not blank the form shows "Please enter a
    valid GitHub username".  A submission of a text inside the grammar, on
    step 2 and with no run outstanding, starts a run with exactly that
    text. *)
Theorem submission_is_gated_by_the_grammar (toUpperCase : N -> N) (B : backend)
    (st : AppState) (local : GitHubConnect.State) :
  let u := GitHubConnect.username local in
  (~ handleGrammar u ->
     fst (fst (userSubmit toUpperCase B st local)) = st
     /\ snd (userSubmit toUpperCase B st local) = []
     /\ GitHubConnect.username (snd (fst (userSubmit toUpperCase B st local))) = u
     /\ (step st = 2 -> isProcessing st = false -> forallb isWhiteSpace u = false ->
         GitHubConnect.error (snd (fst (userSubmit toUpperCase B st local)))
         = lit "Please enter a valid GitHub username"))
  /\ (handleGrammar u -> step st = 2 -> isProcessing st = false ->
        userSubmit toUpperCase B st local
        = (finalState (submitUsername B st u), GitHubConnect.mkState u (lit ""),
           trace (submitUsername B st u))).
Proof.
  intros u. rewrite userSubmit_cases. fold u. split.
  - intros Hg. rewrite <- (validateUsername_ok toUpperCase) in Hg.
    destruct (fst (GitHubConnect.validateUsername toUpperCase u));
      [exfalso; apply Hg; reflexivity|].
    destruct (Nat.eqb (step st) 2) eqn:E2;
      [destruct (isProcessing st); [|destruct (forallb isWhiteSpace u)]|];
      cbn [orb fst snd GitHubConnect.username GitHubConnect.error];
      repeat split; try reflexivity; intros; try discriminate; try reflexivity.
    apply Nat.eqb_neq in E2. congruence.
  - intros Hg H2 Hp. rewrite H2, Hp. cbn [Nat.eqb orb].
    assert (W : forallb isWhiteSpace u = false).
    { apply shape_not_white. apply shape_grammar. exact Hg. }
    rewrite W. apply (validateUsername_ok toUpperCase) in Hg. rewrite Hg. reflexivity.
Qed.

(** "-bad-" and "octocat" on the sample page. *)
Lemma submission_is_gated_by_the_grammar_witness :
  let B := answering (Fulfilled (mkResponse true sampleResumeData None))
                     (Fulfilled (mkResponse true sampleGitHubData None)) in
  userSubmit (fun c => c) B afterUpload (GitHubConnect.mkState (lit "-bad-") (lit ""))
  = (afterUpload,
     GitHubConnect.mkState (lit "-bad-") (lit "Please enter a valid GitHub username"), [])
  /\ fst (fst (userSubmit (fun c => c) B afterUpload
                 (GitHubConnect.mkState octocat (lit ""))))
     = finalState (submitUsername B afterUpload octocat).
Proof.
  intros B.
  assert (Hbad : ~ handleGrammar (lit "-bad-")).
  { intros H. apply (usernameRegex_grammar (fun c => c)) in H.
    vm_compute in H. discriminate H. }
  assert (Hok : handleGrammar octocat).
  { apply (usernameRegex_grammar (fun c => c)). vm_compute. reflexivity. }
  destruct (submission_is_gated_by_the_grammar (fun c => c) B afterUpload
              (GitHubConnect.mkState (lit "-bad-") (lit ""))) as (Hn & _).
  destruct (Hn Hbad) as (_ & _ & _ & _).
  destruct (submission_is_gated_by_the_grammar (fun c => c) B afterUpload
              (GitHubConnect.mkState octocat (lit ""))) as (_ & Hy).
  split; [vm_compute; reflexivity|].
  rewrite (Hy Hok eq_refl eq_refl). reflexivity.
Defined.

(* ----------------------------------------------------------------- *)
(** ** utils/api.ts on its own *)

(** X3. [uploadResume] and [analyzeGitHub] each issue exactly one call,
    return the body of a fulfilled call as it is, throw the error of a
    rejected call as it is (they log it, they do not wrap or swallow it),
    and never touch the state of [App]. *)
Theorem api_functions_propagate (B : backend) (st : AppState) (file : File)
    (username : jsstring) :
  (finalState (exec B (Api.uploadResume file) st) = st
   /\ network (trace (exec B (Api.uploadResume file) st))
      = Requested (resumeRequest file)
        :: settlementOf (resumeRequest file) (resumeService B (resumeRequest file))
   /\ outcome (exec B (Api.uploadResume file) st)
      = completionOf (resumeService B (resumeRequest file)))
  /\ (finalState (exec B (Api.analyzeGitHub username) st) = st
      /\ network (trace (exec B (Api.analyzeGitHub username) st))
         = Requested (gitHubRequest username)
           :: settlementOf (gitHubRequest username)
                (gitHubService B (gitHubRequest username))
      /\ outcome (exec B (Api.analyzeGitHub username) st)
         = completionOf (gitHubService B (gitHubRequest username))).
Proof.
  split.
  - unfold Api.uploadResume, Api.intercepted, perform. step_handler. fold_requests.
    destruct (resumeService B (resumeRequest file)) as [[ra | ea]|];
      step_handler; repeat split.
  - unfold Api.analyzeGitHub, Api.intercepted, perform. step_handler. fold_requests.
    destruct (gitHubService B (gitHubRequest username)) as [[rb | eb]|];
      step_handler; repeat split.
Qed.

(* ----------------------------------------------------------------- *)
(** ** More on [handleGitHubConnect] *)

(** X4. When /resume/analyze is fulfilled and /github/analyze is fulfilled
    with [success: true], the run ends normally without an alert on step 3
    with [isProcessing] false; [twinData] holds the same resume file, the
    [data] of the first answer as [resumeAnalysis], the submitted handle as
    [githubUsername] and the [data] of the second answer as [githubData]. *)
Theorem both_stages_succeed (B : backend) (st : AppState) (file : File)
    (username : jsstring) (ra : ResumeAnalysisResponse) (rb : GitHubAnalysisResponse) :
  resume (twinData st) = Some file ->
  resumeService B (resumeRequest file) = Some (Fulfilled ra) ->
  gitHubService B (gitHubRequest username) = Some (Fulfilled rb) ->
  success rb = true ->
  let r := submitUsername B st username in
  finalState r
  = mkApp 3 (mkTwin (Some file) (Some (data ra)) (Some username) (Some (data rb))
               (analysis (twinData st))) false
  /\ alerts (trace r) = []
  /\ outcome r = Returned tt
  /\ network (trace r)
     = [Requested (resumeRequest file); Resolved (resumeRequest file);
        Requested (gitHubRequest username); Resolved (gitHubRequest username)].
Proof.
  intros Hres HA HB Hs r.
  destruct (observed_inv _ _ _ _ _
              (run_stageB_succeeded B st username file (Fulfilled ra) rb Hres HA HB Hs))
    as (Hst & Hn & Hal & Ho).
  fold r in Hst, Hn, Hal, Ho. rewrite Hst, Hn, Hal, Ho.
  unfold afterStageA, submitted, App.with_githubData, App.with_githubUsername,
    App.with_resumeAnalysis.
  cbn [resume resumeAnalysis githubUsername githubData analysis settlement].
  rewrite Hres. repeat split.
Qed.

(** The sample page, both calls answered with success. *)
Lemma both_stages_succeed_witness :
  finalState (submitUsername
                (answering (Fulfilled (mkResponse true sampleResumeData None))
                           (Fulfilled (mkResponse true sampleGitHubData None)))
                afterUpload octocat)
  = mkApp 3 (mkTwin (Some resume_pdf) (Some sampleResumeData) (Some octocat)
               (Some sampleGitHubData) None) false.
Proof.
  exact (proj1 (both_stages_succeed
                  (answering (Fulfilled (mkResponse true sampleResumeData None))
                             (Fulfilled (mkResponse true sampleGitHubData None)))
                  afterUpload resume_pdf octocat
                  (mkResponse true sampleResumeData None)
                  (mkResponse true sampleGitHubData None)
                  eq_refl eq_refl eq_refl eq_refl)).
Defined.

(** X5. Without a stored resume file [handleGitHubConnect] skips Stage A:
    the only outbound call of the run is the one to /github/analyze, and
    [resumeAnalysis] and [resume] are left as they were. *)
Theorem no_resume_skips_stageA (B : backend) (st : AppState) (username : jsstring) :
  resume (twinData st) = None ->
  let r := submitUsername B st username in
  network (trace r)
  = Requested (gitHubRequest username)
    :: settlementOf (gitHubRequest username) (gitHubService B (gitHubRequest username))
  /\ resumeAnalysis (twinData (finalState r)) = resumeAnalysis (twinData st)
  /\ resume (twinData (finalState r)) = None.
Proof.
  intros Hres r. subst r.
  destruct (gitHubService B (gitHubRequest username)) as [ob|] eqn:HB.
  - destruct (stageB_failure ob) as [e|] eqn:Hf.
    + destruct (observed_inv _ _ _ _ _
                  (run_no_resume_failed B st username ob e Hres HB Hf))
        as (-> & -> & _).
      unfold submitted, App.with_githubUsername.
      cbn [twinData resumeAnalysis resume settlementOf]. auto.
    + destruct (stageB_failure_none _ Hf) as (rb & -> & Hs).
      destruct (observed_inv _ _ _ _ _
                  (run_no_resume_succeeded B st username rb Hres HB Hs))
        as (-> & -> & _).
      unfold submitted, App.with_githubUsername, App.with_githubData.
      cbn [twinData resumeAnalysis resume settlementOf settlement]. auto.
  - destruct (observed_inv _ _ _ _ _ (run_no_resume_pending B st username Hres HB))
      as (-> & -> & _).
    unfold submitted, App.with_githubUsername.
    cbn [twinData resumeAnalysis resume settlementOf]. auto.
Qed.

(** A submission on a page that never stored a resume. *)
Lemma no_resume_skips_stageA_witness :
  network (trace (submitUsername
                    (answering (Fulfilled (mkResponse true sampleResumeData None))
                               (Fulfilled (mkResponse true sampleGitHubData None)))
                    (mkApp 2 emptyTwin false) octocat))
  = [Requested (gitHubRequest octocat); Resolved (gitHubRequest octocat)].
Proof.
  exact (proj1 (no_resume_skips_stageA
                  (answering (Fulfilled (mkResponse true sampleResumeData None))
                             (Fulfilled (mkResponse true sampleGitHubData None)))
                  (mkApp 2 emptyTwin false) octocat eq_refl)).
Defined.

(* ----------------------------------------------------------------- *)
(** ** The wizard as a whole ([App] with its three steps) *)

Lemma In_Requested_network (req : request) (tr : list event) :
  In (Requested req) tr <-> In (Requested req) (network tr).
Proof.
  unfold network. rewrite filter_In. cbn [isNetwork]. tauto.
Qed.

(** Where a run can leave the state, and which calls it can make. *)
Lemma submitUsername_shape (B : backend) (st : AppState) (f : File) (u : jsstring) :
  resume (twinData st) = Some f ->
  exists (td : DigitalTwinData) (b : bool) (s' : nat),
    finalState (submitUsername B st u) = mkApp s' td b
    /\ resume td = Some f /\ githubUsername td = Some u
    /\ ((s' = step st /\ githubData td = githubData (twinData st))
        \/ (s' = 3 /\ b = false /\ githubData td <> None))
    /\ (forall req, In (Requested req) (trace (submitUsername B st u)) ->
          req = resumeRequest f \/ req = gitHubRequest u).
Proof.
  intros Hres.
  assert (Hsub : forall oa, resume (afterStageA oa (submitted st u)) = Some f
                            /\ githubUsername (afterStageA oa (submitted st u)) = Some u
                            /\ githubData (afterStageA oa (submitted st u))
                               = githubData (twinData st)).
  { intros [ra | ea]; unfold afterStageA, submitted, App.with_resumeAnalysis,
      App.with_githubUsername; cbn [resume githubUsername githubData]; auto. }
  assert (Hreq : forall l, (forall req, In (Requested req) l ->
                              req = resumeRequest f \/ req = gitHubRequest u) ->
                 network (trace (submitUsername B st u)) = l ->
                 forall req, In (Requested req) (trace (submitUsername B st u)) ->
                   req = resumeRequest f \/ req = gitHubRequest u).
  { intros l Hl E req Hin. apply In_Requested_network in Hin. rewrite E in Hin. auto. }
  destruct (resumeService B (resumeRequest f)) as [oa|] eqn:HA.
  - destruct (Hsub oa) as (H1 & H2 & H3).
    destruct (gitHubService B (gitHubRequest u)) as [ob|] eqn:HB.
    + destruct (stageB_failure ob) as [e|] eqn:Hf.
      * destruct (observed_inv _ _ _ _ _
                    (run_stageB_failed B st u f oa ob e Hres HA HB Hf))
          as (Hst & Hn & _).
        exists (afterStageA oa (submitted st u)), false, (step st).
        repeat split; auto. eapply Hreq; [|exact Hn].
        intros req [E | [E | [E | [E | []]]]];
          try (injection E as <-; auto); destruct oa, ob; discriminate E.
      * destruct (stageB_failure_none _ Hf) as (rb & -> & Hs).
        destruct (observed_inv _ _ _ _ _
                    (run_stageB_succeeded B st u f oa rb Hres HA HB Hs))
          as (Hst & Hn & _).
        exists (App.with_githubData (data rb)
                  (App.with_githubUsername u (afterStageA oa (submitted st u)))),
          false, 3.
        unfold App.with_githubData, App.with_githubUsername.
        cbn [resume githubUsername githubData].
        repeat split; auto.
        -- right. repeat split. discriminate.
        -- eapply Hreq; [|exact Hn].
           intros req [E | [E | [E | [E | []]]]];
             try (injection E as <-; auto); try discriminate E;
             destruct oa; discriminate E.
    + destruct (observed_inv _ _ _ _ _ (run_stageB_pending B st u f oa Hres HA HB))
        as (Hst & Hn & _).
      exists (afterStageA oa (submitted st u)), true, (step st).
      repeat split; auto. eapply Hreq; [|exact Hn].
      intros req [E | [E | [E | []]]];
        try (injection E as <-; auto); destruct oa; discriminate E.
  - destruct (Hsub (Rejected (newError []))) as (H1 & H2 & H3).
    cbn [afterStageA] in H1, H2, H3.
    destruct (observed_inv _ _ _ _ _ (run_stageA_pending B st u f Hres HA))
      as (Hst & Hn & _).
    exists (submitted st u), true, (step st).
    repeat split; auto. eapply Hreq; [|exact Hn].
    intros req [E | []]. injection E as <-; auto.
Qed.

Lemma selectFile_valid (st : ResumeUpload.State) (files : list File) :
  (forall f, ResumeUpload.selectedFile st = Some f -> validFile f) ->
  forall f, ResumeUpload.selectedFile (ResumeUpload.selectFile st files) = Some f ->
            validFile f.
Proof.
  intros Hold f. destruct files as [|file others]; [apply Hold|].
  unfold ResumeUpload.selectFile.
  destruct (ResumeUpload.validateFile file) as [ok msg] eqn:E.
  destruct ok; cbn [ResumeUpload.selectedFile]; [|apply Hold].
  intros H. injection H as <-. apply validateFile_ok. rewrite E. reflexivity.
Qed.

Lemma uploadButton_selected (st : ResumeUpload.State) :
  ResumeUpload.uploadButtonRendered st = true ->
  exists f, ResumeUpload.selectedFile st = Some f.
Proof.
  unfold ResumeUpload.uploadButtonRendered.
  destruct (ResumeUpload.selectedFile st) as [f|]; [eauto | discriminate].
Qed.

Lemma handleUsernameChange_error (c : GitHubConnect.State) (value : jsstring) :
  GitHubConnect.error c <> lit "Please enter a GitHub username" ->
  GitHubConnect.error (GitHubConnect.handleUsernameChange c value)
  <> lit "Please enter a GitHub username".
Proof.
  unfold GitHubConnect.handleUsernameChange. cbn [GitHubConnect.error].
  destruct (truthy (GitHubConnect.error c)); [discriminate | auto].
Qed.

Ltac split_inv :=
  unfold pageInvariant;
  cbn [appState upload connect twinData step isProcessing
       ResumeUpload.selectedFile ResumeUpload.handleRemoveFile ResumeUpload.initial
       GitHubConnect.error GitHubConnect.initial];
  split; [|split; [|split; [|split]]].

(** Every action keeps the invariant, and calls out only with validated
    data. *)
Lemma act_invariant (up : N -> N) (a : action) (p : Page) :
  pageInvariant p ->
  pageInvariant (fst (act up a p))
  /\ (forall req, In (Requested req) (snd (act up a p)) -> validRequest req).
Proof.
  intros Inv.
  assert (Keep : pageInvariant p
                 /\ (forall req, In (Requested req) (@nil event) -> validRequest req))
    by (split; [exact Inv | intros req []]).
  destruct p as [[s td ip] u c].
  destruct Inv as (Hsel & Hres & Hun & Herr & Hstep).
  cbn [appState upload connect twinData step isProcessing] in Hsel, Hres, Hun, Herr, Hstep.
  destruct s as [|[|[|[|s]]]]; try contradiction; destruct a;
    cbn [act appState upload connect step Nat.eqb andb fst snd]; try exact Keep.
  - (* files selected *)
    split; [|intros req []]. split_inv; auto.
    apply selectFile_valid. exact Hsel.
  - (* selection removed *)
    destruct (ResumeUpload.selectedFile u); [|exact Keep].
    split; [|intros req []]. cbn [fst]. split_inv; auto.
    intros x Hx. discriminate Hx.
  - (* continue to step 2 *)
    destruct (ResumeUpload.uploadButtonRendered u) eqn:Hbtn; [|exact Keep].
    destruct (uploadButton_selected u Hbtn) as (file & Hfile).
    unfold ResumeUpload.handleUpload. rewrite Hfile.
    destruct Hstep as (-> & -> & ->).
    split; [|intros req Hin; vm_compute in Hin; intuition discriminate].
    unfold rendered, App.handleResumeUpload, perform.
    cbn [bind exec finalState fst snd apply step twinData isProcessing Nat.eqb].
    unfold App.with_resume, emptyTwin.
    cbn [resume resumeAnalysis githubUsername githubData].
    split_inv.
    + intros f Hf. discriminate Hf.
    + intros f Hf. injection Hf as <-. apply Hsel. exact Hfile.
    + intros x Hx. discriminate Hx.
    + discriminate.
    + repeat split. discriminate.
  - (* typing *)
    unfold GitHubConnect.inputDisabled. cbn [isProcessing].
    destruct ip; cbn [negb]; [exact Keep|].
    split; [|intros req []]. cbn [fst]. split_inv; auto.
    apply handleUsernameChange_error. exact Herr.
  - (* submission *)
    rewrite userSubmit_cases. cbn [step isProcessing Nat.eqb].
    destruct Hstep as (Hr & Hgd & ->).
    destruct ip; cbn [orb]; [exact Keep|].
    destruct (forallb isWhiteSpace (GitHubConnect.username c)); [exact Keep|].
    destruct (fst (GitHubConnect.validateUsername up (GitHubConnect.username c)))
      eqn:Hok.
    + apply validateUsername_ok in Hok.
      destruct (resume td) as [f|] eqn:Hf; [|congruence].
      destruct (submitUsername_shape B (mkApp 2 td false) f (GitHubConnect.username c) Hf)
        as (td' & b & s' & Hst & Hres' & Hun' & Hcase & Hreq).
      cbn [step twinData] in Hcase. cbn [fst snd]. rewrite Hst. split.
      * unfold rendered. cbn [step].
        destruct Hcase as [(-> & Hgd') | (-> & -> & Hgd')];
          cbn [step twinData Nat.eqb]; split_inv.
        -- intros f' Hf'. discriminate Hf'.
        -- intros f' Hf'. apply Hres. congruence.
        -- intros u' Hu'. congruence.
        -- discriminate.
        -- repeat split; congruence.
        -- intros f' Hf'. discriminate Hf'.
        -- intros f' Hf'. apply Hres. congruence.
        -- intros u' Hu'. congruence.
        -- discriminate.
        -- repeat split; congruence.
      * intros req Hin. destruct (Hreq req Hin) as [-> | ->].
        -- left. exists f. split; [reflexivity | apply Hres; reflexivity].
        -- right. exists (GitHubConnect.username c). split; [reflexivity | exact Hok].
    + split; [|intros req []]. unfold rendered. cbn [fst step Nat.eqb].
      split_inv; auto. discriminate.
  - (* reset *)
    destruct Hstep as (_ & _ & _ & _ & -> & ->).
    split; [|intros req Hin; vm_compute in Hin; intuition discriminate].
    unfold rendered, App.handleReset, perform.
    cbn [bind exec finalState fst snd apply step twinData isProcessing Nat.eqb].
    split_inv; try discriminate; try (intros f Hf; discriminate Hf).
    repeat split.
Qed.

Lemma initialPage_invariant : pageInvariant initialPage.
Proof.
  unfold initialPage, initialApp. split_inv; try discriminate;
    try (intros x Hx; discriminate Hx).
  repeat split.
Qed.

Lemma session_invariant (up : N -> N) (actions : list action) : forall p : Page,
  pageInvariant p ->
  pageInvariant (fst (session up actions p))
  /\ (forall req, In (Requested req) (snd (session up actions p)) -> validRequest req).
Proof.
  induction actions as [|a rest IH]; intros p Inv; cbn [session].
  - split; [exact Inv | intros req []].
  - destruct (act_invariant up a p Inv) as (Inv' & Hreq).
    destruct (act up a p) as [p' tr]. cbn [fst snd] in Inv', Hreq.
    destruct (IH p' Inv') as (Inv'' & Hreq').
    destruct (session up rest p') as [p'' tr']. cbn [fst snd] in *.
    split; [exact Inv''|]. intros req Hin. apply in_app_or in Hin as [Hin | Hin]; auto.
Qed.

Lemma session_app (up : N -> N) (xs ys : list action) : forall p : Page,
  session up (xs ++ ys) p
  = (fst (session up ys (fst (session up xs p))),
     snd (session up xs p) ++ snd (session up ys (fst (session up xs p)))).
Proof.
  induction xs as [|a xs IH]; intros p; cbn [List.app session].
  - cbn [fst snd]. destruct (session up ys p); reflexivity.
  - destruct (act up a p) as [p' tr]. rewrite IH.
    destruct (session up xs p') as [p'' tr']. cbn [fst snd].
    rewrite app_assoc. reflexivity.
Qed.

(** X6. Whatever the user does from a fresh page, the step is 1, 2 or 3;
    [isProcessing] is true only on step 2; [githubData] is present exactly
    on step 3; no resume file is stored exactly on step 1, where [twinData]
    is empty; on step 3 a username is stored. *)
Theorem wizard_state_invariants (toUpperCase : N -> N) (actions : list action) :
  let st := appState (fst (session toUpperCase actions initialPage)) in
  (step st = 1 \/ step st = 2 \/ step st = 3)
  /\ (isProcessing st = true -> step st = 2)
  /\ (githubData (twinData st) <> None <-> step st = 3)
  /\ (resume (twinData st) = None <-> step st = 1)
  /\ (step st = 1 -> twinData st = emptyTwin)
  /\ (step st = 3 -> githubUsername (twinData st) <> None).
Proof.
  intros st.
  destruct (session_invariant toUpperCase actions initialPage initialPage_invariant)
    as ((_ & _ & _ & _ & Hstep) & _).
  fold st in Hstep. cbv zeta in Hstep.
  destruct (step st) as [|[|[|[|s]]]]; try contradiction.
  - destruct Hstep as (E & Hp & _). rewrite E, Hp. cbn [githubData resume emptyTwin].
    repeat split; auto; try discriminate; try tauto; intros H; try discriminate H;
      try (exfalso; apply H; reflexivity).
  - destruct Hstep as (Hr & Hg & _). rewrite Hg.
    repeat split; auto; try discriminate; try tauto; intros H; try discriminate H;
      try (exfalso; apply H; reflexivity); try contradiction.
  - destruct Hstep as (Hr & Hu & Hg & Hp & _). rewrite Hp.
    repeat split; auto; try discriminate; try tauto; intros H; try discriminate H;
      try contradiction.
Qed.

(** A session that ends on the results step. *)
Lemma wizard_state_invariants_witness :
  let B := answering (Fulfilled (mkResponse true sampleResumeData None))
                     (Fulfilled (mkResponse true sampleGitHubData None)) in
  let st := appState (fst (session (fun c => c)
                        [SelectFiles [resume_pdf]; Continue; ChangeUsername octocat;
                         Submit B] initialPage)) in
  step st = 3 /\ githubData (twinData st) <> None /\ isProcessing st = false.
Proof.
  intros B st.
  destruct (wizard_state_invariants (fun c => c)
              [SelectFiles [resume_pdf]; Continue; ChangeUsername octocat; Submit B])
    as (_ & Hp & Hg & _).
  fold st in Hp, Hg.
  assert (H3 : step st = 3) by (vm_compute; reflexivity).
  split; [exact H3 | split; [apply Hg; exact H3|]].
  destruct (isProcessing st) eqn:E; [|reflexivity].
  specialize (Hp eq_refl). rewrite H3 in Hp. discriminate Hp.
Defined.

(** X7. Whatever the user does from a fresh page, the stored resume file
    is one [validateFile] accepted, the stored username is in the username
    grammar, and every outbound call of the session is either a validated
    file posted to /resume/analyze or a handle of the grammar posted to
    /github/analyze. *)
Theorem wizard_sends_only_validated_data (toUpperCase : N -> N)
    (actions : list action) :
  let r := session toUpperCase actions initialPage in
  (forall f, resume (twinData (appState (fst r))) = Some f -> validFile f)
  /\ (forall u, githubUsername (twinData (appState (fst r))) = Some u -> handleGrammar u)
  /\ (forall req, In (Requested req) (snd r) -> validRequest req).
Proof.
  intros r.
  destruct (session_invariant toUpperCase actions initialPage initialPage_invariant)
    as ((_ & Hres & Hun & _) & Hreq).
  fold r in Hres, Hun, Hreq. auto.
Qed.

(** A session with a rejected file, a rejected handle and a run. *)
Lemma wizard_sends_only_validated_data_witness :
  let B := answering (Fulfilled (mkResponse true sampleResumeData None))
                     (Fulfilled (mkResponse true sampleGitHubData None)) in
  let r := session (fun c => c)
             [SelectFiles [mkFile (lit "notes.txt") 10 (lit "text/plain")];
              SelectFiles [resume_pdf]; Continue;
              ChangeUsername (lit "-bad-"); Submit B;
              ChangeUsername octocat; Submit B] initialPage in
  validFile resume_pdf /\ handleGrammar octocat
  /\ validRequest (resumeRequest resume_pdf) /\ validRequest (gitHubRequest octocat).
Proof.
  intros B r.
  destruct (wizard_sends_only_validated_data (fun c => c)
              [SelectFiles [mkFile (lit "notes.txt") 10 (lit "text/plain")];
               SelectFiles [resume_pdf]; Continue;
               ChangeUsername (lit "-bad-"); Submit B;
               ChangeUsername octocat; Submit B])
    as (Hres & Hun & Hreq).
  split; [exact (Hres resume_pdf eq_refl)|].
  split; [exact (Hun octocat eq_refl)|].
  split; apply Hreq; vm_compute; tauto.
Defined.

(** A run ends on the step it started on, or on step 3. *)
Lemma submitUsername_step (B : backend) (st : AppState) (u : jsstring) :
  step (finalState (submitUsername B st u)) = step st
  \/ step (finalState (submitUsername B st u)) = 3.
Proof.
  destruct (resume (twinData st)) as [f|] eqn:Hres.
  - destruct (submitUsername_shape B st f u Hres)
      as (td & b & s' & -> & _ & _ & [(-> & _) | (-> & _)] & _); cbn [step]; auto.
  - destruct (gitHubService B (gitHubRequest u)) as [ob|] eqn:HB.
    + destruct (stageB_failure ob) as [e|] eqn:Hf.
      * destruct (observed_inv _ _ _ _ _ (run_no_resume_failed B st u ob e Hres HB Hf))
          as (-> & _). auto.
      * destruct (stageB_failure_none _ Hf) as (rb & -> & Hs).
        destruct (observed_inv _ _ _ _ _ (run_no_resume_succeeded B st u rb Hres HB Hs))
          as (-> & _). auto.
    + destruct (observed_inv _ _ _ _ _ (run_no_resume_pending B st u Hres HB))
        as (-> & _). auto.
Qed.

(** X8. One action either leaves the step where it is, or moves it from 1
    to 2 (only Continue does), from 2 to 3 (only a submission does) or from
    3 to 1 (only Reset does).  The step never goes back from 2 to 1 and
    never jumps from 1 to 3. *)
Theorem step_transitions (toUpperCase : N -> N) (a : action) (p : Page) :
  let s := step (appState p) in
  let s' := step (appState (fst (act toUpperCase a p))) in
  s' = s
  \/ (s = 1 /\ s' = 2 /\ a = Continue)
  \/ (s = 2 /\ s' = 3 /\ exists B, a = Submit B)
  \/ (s = 3 /\ s' = 1 /\ a = Reset).
Proof.
  destruct p as [st u c]. cbn [appState]. destruct a; cbn [act appState upload connect].
  - destruct (Nat.eqb (step st) 1); cbn [fst appState]; auto.
  - destruct (Nat.eqb (step st) 1); [destruct (ResumeUpload.selectedFile u)|];
      cbn [fst appState]; auto.
  - destruct (Nat.eqb (step st) 1) eqn:E1; cbn [andb]; [|cbn [fst appState]; auto].
    apply Nat.eqb_eq in E1.
    destruct (ResumeUpload.uploadButtonRendered u); [|cbn [fst appState]; auto].
    destruct (ResumeUpload.handleUpload u) as [file|]; [|cbn [fst appState]; auto].
    right; left. rewrite E1. repeat split.
  - destruct (Nat.eqb (step st) 2 && _); cbn [fst appState]; auto.
  - destruct (Nat.eqb (step st) 2) eqn:E2; [|cbn [fst appState]; auto].
    apply Nat.eqb_eq in E2. rewrite userSubmit_cases.
    destruct (Nat.eqb (step st) 2); [|cbn [fst appState rendered]; auto].
    destruct (isProcessing st || _); [cbn [fst appState rendered]; auto|].
    destruct (fst (GitHubConnect.validateUsername toUpperCase (GitHubConnect.username c)));
      [|cbn [fst appState rendered]; auto].
    unfold rendered. cbn [fst appState].
    destruct (submitUsername_step B st (GitHubConnect.username c)) as [E | E];
      rewrite E; [auto|].
    right; right; left. rewrite E2. repeat split. exists B. reflexivity.
  - cbn [fst appState]. auto.
  - destruct (Nat.eqb (step st) 3) eqn:E3; [|cbn [fst appState]; auto].
    apply Nat.eqb_eq in E3. right; right; right. rewrite E3. repeat split.
Qed.

(** X9. Reset on the results step gives back the fresh page: a session
    that has reached step 3, followed by Reset and by further actions, ends
    on the page, and produces after its own events the events, that these
    further actions give on a fresh page. *)
Theorem reset_starts_afresh (toUpperCase : N -> N) (before after : list action) :
  step (appState (fst (session toUpperCase before initialPage))) = 3 ->
  session toUpperCase (before ++ Reset :: after) initialPage
  = (fst (session toUpperCase after initialPage),
     snd (session toUpperCase before initialPage)
     ++ snd (session toUpperCase after initialPage)).
Proof.
  intros H3. rewrite session_app.
  destruct (session_invariant toUpperCase before initialPage initialPage_invariant)
    as ((_ & _ & _ & _ & Hstep) & _).
  destruct (fst (session toUpperCase before initialPage)) as [[s td ip] u c].
  cbn [appState step twinData isProcessing upload connect] in H3, Hstep. subst s.
  destruct Hstep as (_ & _ & _ & _ & -> & ->).
  cbn [session act appState step Nat.eqb upload connect].
  change (rendered (finalState (exec idle App.handleReset (mkApp 3 td ip)))
            ResumeUpload.initial GitHubConnect.initial) with initialPage.
  change (trace (exec idle App.handleReset (mkApp 3 td ip))) with (@nil event).
  destruct (session toUpperCase after initialPage) as [p' tr']. reflexivity.
Qed.

(** A complete session, Reset, and a new upload. *)
Lemma reset_starts_afresh_witness :
  let B := answering (Fulfilled (mkResponse true sampleResumeData None))
                     (Fulfilled (mkResponse true sampleGitHubData None)) in
  fst (session (fun c => c)
         ([SelectFiles [resume_pdf]; Continue; ChangeUsername octocat; Submit B]
          ++ Reset :: [SelectFiles [resume_pdf]]) initialPage)
  = fst (session (fun c => c) [SelectFiles [resume_pdf]] initialPage).
Proof.
  intros B.
  rewrite (reset_starts_afresh (fun c => c)
             [SelectFiles [resume_pdf]; Continue; ChangeUsername octocat; Submit B]
             [SelectFiles [resume_pdf]] eq_refl).
  reflexivity.
Defined.

(** X10. The branch of [validateUsername] for blank input cannot be
    reached through the form: the submit button is disabled while the text
    is blank, so on no page of any session does the form show "Please enter
    a GitHub username". *)
Theorem empty_message_is_never_shown (toUpperCase : N -> N) (actions : list action) :
  GitHubConnect.error (connect (fst (session toUpperCase actions initialPage)))
  <> lit "Please enter a GitHub username".
Proof.
  destruct (session_invariant toUpperCase actions initialPage initialPage_invariant)
    as ((_ & _ & _ & Herr & _) & _).
  exact Herr.
Qed.

(* ----------------------------------------------------------------- *)
(** ** ProgressTracker *)

(** X11. For a step of 1, 2 or 3 the tracker marks exactly the first
    [currentStep] entries active and exactly the first [currentStep - 1]
    completed, shows the check icon on the completed entries only, and
    draws a connector, with the class of its entry, after every entry but
    the last.  On every page of a session the first entry is active and the
    last one is not completed. *)
Theorem progress_tracker_marks (currentStep : nat) :
  (1 <= currentStep <= 3 ->
     List.map ProgressTracker.active (ProgressTracker.render currentStep)
     = [true; Nat.leb 2 currentStep; Nat.leb 3 currentStep]
     /\ List.map ProgressTracker.completed (ProgressTracker.render currentStep)
        = [Nat.leb 2 currentStep; Nat.leb 3 currentStep; false]
     /\ List.map ProgressTracker.checkIcon (ProgressTracker.render currentStep)
        = List.map ProgressTracker.completed (ProgressTracker.render currentStep)
     /\ List.map ProgressTracker.connector (ProgressTracker.render currentStep)
        = [Some (Nat.leb 2 currentStep); Some (Nat.leb 3 currentStep); None])
  /\ (forall (toUpperCase : N -> N) (actions : list action),
        currentStep = step (appState (fst (session toUpperCase actions initialPage))) ->
        List.map ProgressTracker.active (ProgressTracker.render currentStep)
        = [true; Nat.leb 2 currentStep; Nat.leb 3 currentStep]
        /\ List.map ProgressTracker.completed (ProgressTracker.render currentStep)
           = [Nat.leb 2 currentStep; Nat.leb 3 currentStep; false]).
Proof.
  assert (H : 1 <= currentStep <= 3 ->
              List.map ProgressTracker.active (ProgressTracker.render currentStep)
              = [true; Nat.leb 2 currentStep; Nat.leb 3 currentStep]
              /\ List.map ProgressTracker.completed (ProgressTracker.render currentStep)
                 = [Nat.leb 2 currentStep; Nat.leb 3 currentStep; false]
              /\ List.map ProgressTracker.checkIcon (ProgressTracker.render currentStep)
                 = List.map ProgressTracker.completed
                     (ProgressTracker.render currentStep)
              /\ List.map ProgressTracker.connector (ProgressTracker.render currentStep)
                 = [Some (Nat.leb 2 currentStep); Some (Nat.leb 3 currentStep); None]).
  { intros [H1 H3].
    destruct currentStep as [|[|[|[|n]]]]; try lia; vm_compute; auto. }
  split; [exact H|].
  intros up actions E.
  destruct (session_invariant up actions initialPage initialPage_invariant)
    as ((_ & _ & _ & _ & Hstep) & _).
  rewrite <- E in Hstep.
  assert (R : 1 <= currentStep <= 3).
  { destruct currentStep as [|[|[|[|n]]]]; try contradiction; lia. }
  destruct (H R) as (Ha & Hc & _). auto.
Qed.

(** The tracker on step 2. *)
Lemma progress_tracker_marks_witness :
  List.map ProgressTracker.active (ProgressTracker.render 2) = [true; true; false]
  /\ List.map ProgressTracker.completed (ProgressTracker.render 2) = [true; false; false].
Proof.
  destruct (proj1 (progress_tracker_marks 2) ltac:(lia)) as (Ha & Hc & _).
  split; [exact Ha | exact Hc].
Defined.

(* ----------------------------------------------------------------- *)
(** ** ConversationalWidget *)

Lemma truthy_nonempty (s : jsstring) : truthy s = true <-> s <> [].
Proof. destruct s; cbn [truthy]; split; congruence. Qed.

(** X12. Once the configuration promise has settled the widget no longer
    shows the loading card; it stays on it only for a promise that never
    settles.  The embedded agent is rendered exactly when the answer has
    [success] and [configured] true and a non-empty [agentId], and then
    with that id.  A rejection, and an answer with [success] but without
    [data], give "Failed to load conversational AI"; the card of the
    unavailable agent never has an empty text. *)
Theorem widget_embeds_only_a_configured_agent
    (o : option (settled ConversationalWidget.Config.Response)) :
  let st := ConversationalWidget.fetchAgentConfig o ConversationalWidget.initial in
  (ConversationalWidget.render st = ConversationalWidget.Loading <-> o = None)
  /\ (forall a,
        ConversationalWidget.render st = ConversationalWidget.Embed a <->
        a <> [] /\
        o = Some (Fulfilled (ConversationalWidget.Config.mkResponse true
                    (Some (ConversationalWidget.Config.mkData true (Some a))))))
  /\ (forall e, o = Some (Rejected e) ->
        ConversationalWidget.render st
        = ConversationalWidget.Unavailable (lit "Failed to load conversational AI"))
  /\ (o = Some (Fulfilled (ConversationalWidget.Config.mkResponse true None)) ->
        ConversationalWidget.render st
        = ConversationalWidget.Unavailable (lit "Failed to load conversational AI"))
  /\ (forall m,
        ConversationalWidget.render st = ConversationalWidget.Unavailable m -> m <> []).
Proof.
  intros st. subst st.
  destruct o as [[[ok [[cfg [a|]]|]] | e]|];
    try destruct ok; try destruct cfg;
    unfold ConversationalWidget.fetchAgentConfig, ConversationalWidget.render,
      ConversationalWidget.initial;
    cbn [ConversationalWidget.Config.success ConversationalWidget.Config.data
         ConversationalWidget.Config.configured ConversationalWidget.Config.agentId
         ConversationalWidget.agentId ConversationalWidget.isLoading
         ConversationalWidget.error ConversationalWidget.truthyOpt orb negb];
    try destruct (truthy a) eqn:Ta;
    try change (truthy (lit "ElevenLabs agent not configured")) with true;
    try change (truthy (lit "Failed to load conversational AI")) with true;
    cbn [orb negb js_or];
    try change (js_or (lit "ElevenLabs agent not configured") (lit "Agent not configured"))
      with (lit "ElevenLabs agent not configured");
    try change (js_or (lit "Failed to load conversational AI") (lit "Agent not configured"))
      with (lit "Failed to load conversational AI");
    (split; [split; intros H; try discriminate H; try reflexivity|]);
    (split; [intros b; split;
             [intros H; try discriminate H;
              try (injection H as <-; split; [apply truthy_nonempty; exact Ta | reflexivity])
             |intros [Hb H]; try discriminate H;
              try (injection H as <-; first [reflexivity
                     | apply truthy_nonempty in Hb; congruence])]|]);
    (split; [intros e' H; try discriminate H; try reflexivity|]);
    (split; [intros H; try discriminate H; try reflexivity|]);
    intros m H; try discriminate H; injection H as <-; vm_compute; discriminate.
Qed.

(** A configured agent, and a configuration without agent id. *)
Lemma widget_embeds_only_a_configured_agent_witness :
  ConversationalWidget.render
    (ConversationalWidget.fetchAgentConfig
       (Some (Fulfilled (ConversationalWidget.Config.mkResponse true
                (Some (ConversationalWidget.Config.mkData true (Some (lit "agent_42")))))))
       ConversationalWidget.initial)
  = ConversationalWidget.Embed (lit "agent_42")
  /\ ConversationalWidget.render
       (ConversationalWidget.fetchAgentConfig
          (Some (Rejected (newError (lit "Network Error"))))
          ConversationalWidget.initial)
     = ConversationalWidget.Unavailable (lit "Failed to load conversational AI").
Proof.
  split.
  - apply (proj1 (proj2 (widget_embeds_only_a_configured_agent _))).
    split; [discriminate | reflexivity].
  - apply (proj1 (proj2 (proj2 (widget_embeds_only_a_configured_agent _)))
             (newError (lit "Network Error"))).
    reflexivity.
Defined.

(* ----------------------------------------------------------------- *)
(** ** More on [handleExport] *)

Lemma exportData_depends (t1 t2 : DigitalTwinData) (now : ResultsDisplay.Date) :
  option_map name (resume t1) = option_map name (resume t2) ->
  githubUsername t1 = githubUsername t2 ->
  ResultsDisplay.exportData t1 now = ResultsDisplay.exportData t2 now.
Proof.
  intros Hn Hu. unfold ResultsDisplay.exportData. rewrite Hu.
  destruct (resume t1) as [f1|], (resume t2) as [f2|]; cbn [option_map] in Hn;
    try discriminate Hn; [injection Hn as ->|]; reflexivity.
Qed.

(** X13. The exported document is made of the name of the resume file,
    the username and the export time only: two states that agree on these
    two give the same file at the same time, whatever their analysis
    results, file sizes and file types.  Two exports at different times
    have the same keys and differ at most in the value of [timestamp]. *)
Theorem export_depends_on_names_only (t1 t2 : DigitalTwinData)
    (now1 now2 : ResultsDisplay.Date) :
  option_map name (resume t1) = option_map name (resume t2) ->
  githubUsername t1 = githubUsername t2 ->
  ResultsDisplay.handleExport t1 now1 = ResultsDisplay.handleExport t2 now1
  /\ ResultsDisplay.exportedKeys t1 now1 = ResultsDisplay.exportedKeys t2 now2
  /\ (forall key, key <> lit "timestamp" ->
        ResultsDisplay.exportedValue t1 now1 key
        = ResultsDisplay.exportedValue t2 now2 key).
Proof.
  intros Hn Hu. split; [|split].
  - unfold ResultsDisplay.handleExport. rewrite (exportData_depends t1 t2 now1 Hn Hu).
    reflexivity.
  - unfold ResultsDisplay.exportedKeys.
    rewrite (exportData_depends t1 t2 now1 Hn Hu).
    unfold ResultsDisplay.exportData.
    destruct (resume t2), (githubUsername t2); reflexivity.
  - intros key Hk. unfold ResultsDisplay.exportedValue.
    rewrite (exportData_depends t1 t2 now1 Hn Hu).
    assert (Ek : jsstring_eqb (lit "timestamp") key = false).
    { apply jsstring_eqb_neq. congruence. }
    unfold ResultsDisplay.exportData.
    destruct (resume t2), (githubUsername t2);
      cbn [ResultsDisplay.members ResultsDisplay.serializeProperty List.find fst snd];
      repeat match goal with
             | |- context [jsstring_eqb ?a key] =>
                 destruct (jsstring_eqb a key) eqn:?
             end;
      try discriminate; reflexivity.
Qed.

(** The sample page before and after its analysis, a second apart. *)
Lemma export_depends_on_names_only_witness :
  ResultsDisplay.handleExport
    (mkTwin (Some resume_pdf) None (Some octocat) None None)
    (ResultsDisplay.mkDate 2026 10 1 9 5 3 7)
  = ResultsDisplay.handleExport
      (mkTwin (Some resume_pdf) (Some sampleResumeData) (Some octocat)
              (Some sampleGitHubData) None)
      (ResultsDisplay.mkDate 2026 10 1 9 5 3 7)
  /\ ResultsDisplay.exportedValue
       (mkTwin (Some resume_pdf) None (Some octocat) None None)
       (ResultsDisplay.mkDate 2026 10 1 9 5 3 7) (lit "github")
     = ResultsDisplay.exportedValue
         (mkTwin (Some resume_pdf) (Some sampleResumeData) (Some octocat)
                 (Some sampleGitHubData) None)
         (ResultsDisplay.mkDate 2026 10 1 9 5 4 7) (lit "github").
Proof.
  destruct (export_depends_on_names_only
              (mkTwin (Some resume_pdf) None (Some octocat) None None)
              (mkTwin (Some resume_pdf) (Some sampleResumeData) (Some octocat)
                      (Some sampleGitHubData) None)
              (ResultsDisplay.mkDate 2026 10 1 9 5 3 7)
              (ResultsDisplay.mkDate 2026 10 1 9 5 4 7) eq_refl eq_refl)
    as (H1 & _ & H3).
  split; [exact H1 | apply H3; vm_compute; discriminate].
Defined.

(* ----------------------------------------------------------------- *)
(** ** Sessions from end to end *)

(** An action other than a submission makes no outbound call. *)
Lemma act_calls_out (up : N -> N) (a : action) (p : Page) :
  (forall B, a <> Submit B) -> network (snd (act up a p)) = [].
Proof.
  destruct p as [st u c]. intros Hns. destruct a; cbn [act appState upload connect].
  - destruct (Nat.eqb (step st) 1); reflexivity.
  - destruct (Nat.eqb (step st) 1); [|reflexivity].
    destruct (ResumeUpload.selectedFile u); reflexivity.
  - destruct (Nat.eqb (step st) 1 && ResumeUpload.uploadButtonRendered u);
      [|reflexivity].
    destruct (ResumeUpload.handleUpload u); reflexivity.
  - destruct (Nat.eqb (step st) 2 && _); reflexivity.
  - exfalso. exact (Hns B eq_refl).
  - reflexivity.
  - destruct (Nat.eqb (step st) 3); reflexivity.
Qed.

Lemma session_calls_out (up : N -> N) (actions : list action) : forall p : Page,
  (forall B, ~ In (Submit B) actions) ->
  network (snd (session up actions p)) = [].
Proof.
  induction actions as [|a rest IH]; intros p Hns; cbn [session].
  - reflexivity.
  - assert (Ha : forall B, a <> Submit B).
    { intros B E. apply (Hns B). left. exact E. }
    assert (Hr : forall B, ~ In (Submit B) rest).
    { intros B Hin. apply (Hns B). right. exact Hin. }
    pose proof (act_calls_out up a p Ha) as Hact.
    destruct (act up a p) as [p' tr].
    specialize (IH p' Hr). destruct (session up rest p') as [p'' tr'].
    cbn [snd] in *. unfold network in *. rewrite filter_app, Hact, IH. reflexivity.
Qed.

(** X14. Selecting, removing and continuing with a file, typing, exporting
    and resetting make no outbound call: the resume file is not posted when
    it is accepted on step 1, and a session without a submission makes no
    call at all. *)
Theorem only_submissions_call_out (toUpperCase : N -> N) :
  (forall (a : action) (p : Page),
      (forall B, a <> Submit B) ->
      network (snd (act toUpperCase a p)) = [])
  /\ (forall (actions : list action) (p : Page),
        (forall B, ~ In (Submit B) actions) ->
        network (snd (session toUpperCase actions p)) = []).
Proof.
  split.
  - intros a p. apply act_calls_out.
  - intros actions p. apply session_calls_out.
Qed.

(** Accepting the sample file posts nothing. *)
Lemma only_submissions_call_out_witness :
  network (snd (session (fun c => c)
                  [SelectFiles [resume_pdf]; Continue; ChangeUsername octocat]
                  initialPage)) = [].
Proof.
  apply (proj2 (only_submissions_call_out (fun c => c))).
  intros B [H | [H | [H | []]]]; discriminate H.
Defined.

(** The page after a valid file was selected and Continue was clicked. *)
Lemma session_upload (up : N -> N) (file : File) :
  validFile file ->
  fst (session up [SelectFiles [file]; Continue] initialPage)
  = mkPage (mkApp 2 (mkTwin (Some file) None None None None) false)
           ResumeUpload.initial GitHubConnect.initial.
Proof.
  intros Hv. cbn [session act appState upload connect initialPage initialApp step
                  Nat.eqb andb fst snd].
  destruct (selectFile_accepts ResumeUpload.initial file [] Hv) as (E & Hbtn & Hup).
  rewrite Hbtn, Hup. reflexivity.
Qed.

(** Typing on step 2 with no run outstanding. *)
Lemma act_change (up : N -> N) (st : AppState) (us : ResumeUpload.State)
    (c : GitHubConnect.State) (value : jsstring) :
  step st = 2 -> isProcessing st = false ->
  act up (ChangeUsername value) (mkPage st us c)
  = (mkPage st us (GitHubConnect.handleUsernameChange c value), []).
Proof.
  intros H2 Hp. cbn [act appState upload connect]. unfold GitHubConnect.inputDisabled.
  rewrite H2, Hp. reflexivity.
Qed.

(** Submitting a handle of the grammar on step 2 with no run outstanding. *)
Lemma act_submit (up : N -> N) (B : backend) (st : AppState)
    (us : ResumeUpload.State) (c : GitHubConnect.State) :
  step st = 2 -> isProcessing st = false -> handleGrammar (GitHubConnect.username c) ->
  act up (Submit B) (mkPage st us c)
  = (rendered (finalState (submitUsername B st (GitHubConnect.username c))) us
       (GitHubConnect.mkState (GitHubConnect.username c) (lit "")),
     trace (submitUsername B st (GitHubConnect.username c))).
Proof.
  intros H2 Hp Hg. cbn [act appState upload connect]. rewrite userSubmit_cases.
  rewrite H2, Hp. cbn [Nat.eqb orb].
  assert (W : forallb isWhiteSpace (GitHubConnect.username c) = false).
  { apply shape_not_white. apply shape_grammar. exact Hg. }
  rewrite W. apply (validateUsername_ok up) in Hg. rewrite Hg. reflexivity.
Qed.

(** X15. From a fresh page, selecting a file that [validateFile] accepts,
    Continue, typing a handle of the grammar and submitting it, with both
    calls fulfilled and [success: true] from /github/analyze, ends on step 3
    with the file, both [data] payloads and the handle stored, after exactly
    the two calls in order. *)
Theorem complete_session_reaches_results (toUpperCase : N -> N) (B : backend)
    (file : File) (u : jsstring) (ra : ResumeAnalysisResponse)
    (rb : GitHubAnalysisResponse) :
  validFile file ->
  handleGrammar u ->
  resumeService B (resumeRequest file) = Some (Fulfilled ra) ->
  gitHubService B (gitHubRequest u) = Some (Fulfilled rb) ->
  success rb = true ->
  let r := session toUpperCase
             [SelectFiles [file]; Continue; ChangeUsername u; Submit B] initialPage in
  fst r = mkPage (mkApp 3 (mkTwin (Some file) (Some (data ra)) (Some u)
                             (Some (data rb)) None) false)
                 ResumeUpload.initial GitHubConnect.initial
  /\ network (snd r)
     = [Requested (resumeRequest file); Resolved (resumeRequest file);
        Requested (gitHubRequest u); Resolved (gitHubRequest u)]
  /\ alerts (snd r) = [].
Proof.
  intros Hv Hg HA HB Hs r. subst r.
  change [SelectFiles [file]; Continue; ChangeUsername u; Submit B]
    with ([SelectFiles [file]; Continue] ++ [ChangeUsername u; Submit B]).
  rewrite session_app.
  assert (Hn : network (snd (session toUpperCase [SelectFiles [file]; Continue]
                               initialPage)) = []).
  { apply session_calls_out. intros B' [H | [H | []]]; discriminate H. }
  assert (Hal : alerts (snd (session toUpperCase [SelectFiles [file]; Continue]
                               initialPage)) = []).
  { cbn [session act appState upload connect initialPage initialApp step
         Nat.eqb andb fst snd].
    destruct (selectFile_accepts ResumeUpload.initial file [] Hv) as (_ & Hbtn & Hup).
    rewrite Hbtn, Hup. reflexivity. }
  rewrite (session_upload toUpperCase file Hv).
  set (tr1 := snd (session toUpperCase [SelectFiles [file]; Continue] initialPage)) in *.
  clearbody tr1.
  set (st2 := mkApp 2 (mkTwin (Some file) None None None None) false).
  cbn [session]. rewrite (act_change toUpperCase st2 _ _ u eq_refl eq_refl).
  change (GitHubConnect.handleUsernameChange GitHubConnect.initial u)
    with (GitHubConnect.mkState u (lit "")).
  rewrite (act_submit toUpperCase B st2 _ (GitHubConnect.mkState u (lit ""))
             eq_refl eq_refl Hg).
  cbn [GitHubConnect.username fst snd].
  destruct (observed_inv _ _ _ _ _
              (run_stageB_succeeded B st2 u file (Fulfilled ra) rb eq_refl HA HB Hs))
    as (Hst & Hnet & Halr & _).
  rewrite Hst. cbn [List.app]. rewrite app_nil_r.
  unfold network, alerts in *. rewrite flat_map_app, filter_app.
  rewrite Hn, Hal, Hnet, Halr. repeat split.
Qed.

(** The sample file and handle, with a backend that answers both calls. *)
Lemma complete_session_reaches_results_witness :
  let B := answering (Fulfilled (mkResponse true sampleResumeData None))
                     (Fulfilled (mkResponse true sampleGitHubData None)) in
  step (appState (fst (session (fun c => c)
                         [SelectFiles [resume_pdf]; Continue; ChangeUsername octocat;
                          Submit B] initialPage))) = 3.
Proof.
  intros B.
  assert (Hok : handleGrammar octocat).
  { apply (usernameRegex_grammar (fun c => c)). vm_compute. reflexivity. }
  destruct (complete_session_reaches_results (fun c => c) B resume_pdf octocat
              (mkResponse true sampleResumeData None)
              (mkResponse true sampleGitHubData None)
              eq_refl Hok eq_refl eq_refl eq_refl) as (E & _).
  rewrite E. reflexivity.
Defined.

(** X16. After a run whose Stage B failed the form is usable again as it
    stands: the page is on step 2 and not processing, the submitted handle
    is still in the box with no error text, the submit button is enabled,
    and the stored resume file is the same.  Submitting again, with nothing
    typed in between, starts a new run with the same handle; when a resume
    file is stored, that run posts it to /resume/analyze again. *)
Theorem failed_run_can_be_retried (toUpperCase : N -> N) (B1 B2 : backend)
    (st : AppState) (us : ResumeUpload.State) (c : GitHubConnect.State)
    (ob : settled GitHubAnalysisResponse) (e : JsError) :
  let u := GitHubConnect.username c in
  step st = 2 -> isProcessing st = false -> handleGrammar u ->
  stageA_settles B1 st ->
  gitHubService B1 (gitHubRequest u) = Some ob ->
  stageB_failure ob = Some e ->
  let p1 := fst (act toUpperCase (Submit B1) (mkPage st us c)) in
  step (appState p1) = 2
  /\ isProcessing (appState p1) = false
  /\ connect p1 = GitHubConnect.mkState u (lit "")
  /\ GitHubConnect.buttonDisabled (isProcessing (appState p1)) (connect p1) = false
  /\ resume (twinData (appState p1)) = resume (twinData st)
  /\ snd (act toUpperCase (Submit B2) p1) = trace (submitUsername B2 (appState p1) u)
  /\ (forall file, resume (twinData st) = Some file ->
        exists rest,
          network (snd (act toUpperCase (Submit B2) p1))
          = Requested (resumeRequest file) :: rest).
Proof.
  intros u H2 Hp Hg HA HB Hf p1.
  assert (W : forallb isWhiteSpace u = false).
  { apply shape_not_white. apply shape_grammar. exact Hg. }
  destruct (run_failed B1 st u ob e HA HB Hf) as (t & E & Ht).
  destruct (observed_inv _ _ _ _ _ E) as (Hst & _).
  assert (Hres : resume t = resume (twinData st)).
  { rewrite Ht. destruct (resume (twinData st)) as [file|] eqn:Hr;
      [destruct (resumeService B1 (resumeRequest file)) as [[ra|ea]|]|];
      unfold afterStageA, submitted, App.with_resumeAnalysis, App.with_githubUsername;
      cbn [resume]; auto. }
  assert (Ep : p1 = mkPage (mkApp 2 t false) ResumeUpload.initial
                      (GitHubConnect.mkState u (lit ""))).
  { subst p1. rewrite (act_submit toUpperCase B1 st us c H2 Hp Hg). cbn [fst].
    fold u. rewrite Hst, H2. reflexivity. }
  rewrite Ep. cbn [appState connect step isProcessing twinData].
  rewrite buttonDisabled_blank. cbn [GitHubConnect.username orb]. rewrite W.
  rewrite (act_submit toUpperCase B2 (mkApp 2 t false) ResumeUpload.initial
             (GitHubConnect.mkState u (lit "")) eq_refl eq_refl Hg).
  cbn [snd GitHubConnect.username].
  repeat split; auto.
  intros file Hfile. apply run_starts_with_stageA.
  cbn [twinData]. congruence.
Qed.

(** The sample page: /github/analyze is down, then answers. *)
Lemma failed_run_can_be_retried_witness :
  let B1 := answering (Fulfilled (mkResponse true sampleResumeData None))
                      (Rejected (newError (lit "Network Error"))) in
  let B2 := answering (Fulfilled (mkResponse true sampleResumeData None))
                      (Fulfilled (mkResponse true sampleGitHubData None)) in
  let p0 := mkPage afterUpload ResumeUpload.initial
              (GitHubConnect.mkState octocat (lit "")) in
  let p1 := fst (act (fun c => c) (Submit B1) p0) in
  step (appState p1) = 2
  /\ connect p1 = GitHubConnect.mkState octocat (lit "")
  /\ step (appState (fst (act (fun c => c) (Submit B2) p1))) = 3.
Proof.
  intros B1 B2 p0 p1.
  assert (Hok : handleGrammar octocat).
  { apply (usernameRegex_grammar (fun c => c)). vm_compute. reflexivity. }
  destruct (failed_run_can_be_retried (fun c => c) B1 B2 afterUpload
              ResumeUpload.initial (GitHubConnect.mkState octocat (lit ""))
              (Rejected (newError (lit "Network Error")))
              (newError (lit "Network Error"))
              eq_refl eq_refl Hok ltac:(vm_compute; discriminate) eq_refl eq_refl)
    as (H2 & _ & Hc & _).
  split; [exact H2 | split; [exact Hc | vm_compute; reflexivity]].
Defined.
